(** * Savitara web client: the Google sign-in flow of [AuthContext.jsx]

    A shallow embedding of the client-side authentication code
    ([savitara-web/src/context/AuthContext.jsx], [services/firebase.js],
    [components/RoleSelectionDialog.jsx]) and the properties of the two-step
    Google sign-in state machine.

    JavaScript values are duck-typed, so response bodies and thrown errors are
    carried as a small JSON value type.  An [async] function is a tree of
    synchronous effects and awaited external calls; the event loop resumes a
    suspended tree when the awaited promise settles. *)

From Stdlib Require Import String Ascii List Bool Arith Lia.
From stdpp Require Import base option gmap strings list fin_maps.
Import ListNotations.
Open Scope string_scope.
Open Scope list_scope.
Set Warnings "-register-all".

(** ** JavaScript values *)

Module Js.

(** A JSON-like value.  A number carries the text JavaScript prints for it
    ([String(n)]); the code never computes with numbers. *)
Inductive Json : Type :=
| JUndefined
| JNull
| JBool (b : bool)
| JNumber (shown : string)
| JString (s : string)
| JObject (fields : list (string * Json)).

Definition string_nonempty (s : string) : bool :=
  match s with EmptyString => false | String _ _ => true end.

(** [ToBoolean]: what [if (v)], [!v] and [||] test. *)
Definition truthy (v : Json) : bool :=
  match v with
  | JUndefined | JNull => false
  | JBool b => b
  | JNumber shown => negb (String.eqb shown "0" || String.eqb shown "NaN")
  | JString s => string_nonempty s
  | JObject _ => true
  end.

(** [a || b] *)
Definition or_else (a b : Json) : Json := if truthy a then a else b.

(** [String(v)], the conversion [localStorage.setItem] applies to its value,
    for a value it can convert (see [convertible]). *)
Definition toString (v : Json) : string :=
  match v with
  | JUndefined => "undefined"
  | JNull => "null"
  | JBool true => "true"
  | JBool false => "false"
  | JNumber shown => shown
  | JString s => s
  | JObject _ => "[object Object]"
  end.

Fixpoint assoc (k : string) (fields : list (string * Json)) : Json :=
  match fields with
  | [] => JUndefined
  | (k', v) :: rest => if String.eqb k k' then v else assoc k rest
  end.

Fixpoint has_key (k : string) (fields : list (string * Json)) : bool :=
  match fields with
  | [] => false
  | (k', _) :: rest => String.eqb k k' || has_key k rest
  end.

(** Whether [String(v)] returns.  On an object it calls the [toString]
    method; an own [toString] property that came out of JSON is no function,
    and [valueOf] then gives back the object, so the conversion throws a
    [TypeError]. *)
Definition convertible (v : Json) : bool :=
  match v with
  | JObject fields => negb (has_key "toString" fields)
  | _ => true
  end.

(** [v.k] on a value that is neither [null] nor [undefined]; the property
    names the code reads exist on no primitive. *)
Definition get (v : Json) (k : string) : Json :=
  match v with
  | JObject fields => assoc k fields
  | _ => JUndefined
  end.

Definition nullish (v : Json) : bool :=
  match v with JUndefined | JNull => true | _ => false end.

(** [v?.k] *)
Definition opt (v : Json) (k : string) : Json :=
  if nullish v then JUndefined else get v k.

(** [a === "literal"], as the [switch] on [error.code] compares. *)
Definition is_string (v : Json) (lit : string) : bool :=
  match v with JString s => String.eqb s lit | _ => false end.

(** A thrown [Error] object: the three properties the handlers read. *)
Record Error := mkError { message : Json; code : Json; response : Json }.

(** [TypeError] raised by reading a property of [undefined] or [null]. *)
Definition TypeError : Error :=
  mkError (JString "Cannot read properties of undefined") JUndefined JUndefined.

(** [TypeError] raised by [String(v)] on a value it cannot convert. *)
Definition ConversionError : Error :=
  mkError (JString "Cannot convert object to primitive value") JUndefined JUndefined.

(** The [DOMException] raised by [localStorage.setItem] when the new value
    does not fit the storage quota. *)
Definition QuotaExceededError : Error :=
  mkError (JString "The quota has been exceeded.") (JNumber "22") JUndefined.

(** [new Error(msg)] *)
Definition newError (msg : Json) : Error :=
  mkError (JString (toString msg)) JUndefined JUndefined.

Definition lower (c : ascii) : ascii :=
  let n := nat_of_ascii c in
  if ((65 <=? n) && (n <=? 90))%nat then ascii_of_nat (n + 32) else c.

Fixpoint lowercase (s : string) : string :=
  match s with
  | EmptyString => EmptyString
  | String c rest => String (lower c) (lowercase rest)
  end.

Fixpoint includes (pat s : string) : bool :=
  String.prefix pat s ||
  match s with
  | EmptyString => false
  | String _ rest => includes pat rest
  end.

(** [/a|b|.../i.test(s)] for literal alternatives. *)
Definition test_any_ci (alternatives : list string) (s : string) : bool :=
  existsb (fun pat => includes (lowercase pat) (lowercase s)) alternatives.

End Js.
Import Js.

(** ** External calls and synchronous effects *)

(** [firebase/auth]'s [User], restricted to what the code reads. *)
Record FirebaseUser := mkFirebaseUser {
  uid : Json; email : Json; displayName : Json; photoURL : Json }.

Record UserCredential := mkUserCredential { credential_user : FirebaseUser }.

(** What [signInWithGoogle] and [checkRedirectResult] return:
    [{ user: {...}, idToken }]. *)
Record SignInResult := mkSignInResult {
  result_user : FirebaseUser; result_idToken : string }.

(** [{ idToken, userEmail }], the value held in [pendingGoogleAuth]. *)
Record PendingAuth := mkPendingAuth { idToken : Json; userEmail : Json }.

(** The promises the code awaits: axios requests and Firebase SDK calls. *)
Inductive Ext : Type :=
| api_post (url : string) (body : Json)
| api_get (url : string)
| signInWithPopup
| signInWithRedirect
| getRedirectResult
| getIdToken (forceRefresh : bool)
| signOut.

(** What each promise fulfils with.  For axios it is [response.data]. *)
Definition reply (c : Ext) : Type :=
  match c with
  | api_post _ _ | api_get _ => Json
  | signInWithPopup => UserCredential
  | signInWithRedirect => unit
  | getRedirectResult => option UserCredential
  | getIdToken _ => string
  | signOut => unit
  end.

Inductive Settled (A : Type) : Type :=
| Fulfilled (a : A)
| Rejected (e : Error).
Arguments Fulfilled {A} a.
Arguments Rejected {A} e.

Inductive ToastLevel := success | error | info.

(** React state setters, [localStorage] writes, router and toast commands. *)
Inductive Effect : Type :=
| setUser (u : Json)
| setLoading (b : bool)
| setPendingGoogleAuth (p : option PendingAuth)
| setItem (key : string) (value : Json)
| removeItem (key : string)
| navigate (to : string) (replace : bool)
| toast (level : ToastLevel) (msg : Json).

(** ** Asynchronous procedures *)

Inductive Proc (A : Type) : Type :=
| Ret (a : A)
| Throw (e : Error)
| Do (e : Effect) (k : option Error -> Proc A)
| GetItem (key : string) (k : option string -> Proc A)
| UserAgent (k : string -> Proc A)
| Await (c : Ext) (k : Settled (reply c) -> Proc A).
Arguments Ret {A} a.
Arguments Throw {A} e.
Arguments Do {A} e k.
Arguments GetItem {A} key k.
Arguments UserAgent {A} k.
Arguments Await {A} c k.

Fixpoint bind {A B} (p : Proc A) (f : A -> Proc B) : Proc B :=
  match p with
  | Ret a => f a
  | Throw e => Throw e
  | Do e k => Do e (fun thrown => bind (k thrown) f)
  | GetItem key k => GetItem key (fun v => bind (k v) f)
  | UserAgent k => UserAgent (fun ua => bind (k ua) f)
  | Await c k => Await c (fun r => bind (k r) f)
  end.

(** [try { p } catch (error) { h error }] *)
Fixpoint try_catch {A} (p : Proc A) (h : Error -> Proc A) : Proc A :=
  match p with
  | Ret a => Ret a
  | Throw e => h e
  | Do e k => Do e (fun thrown => try_catch (k thrown) h)
  | GetItem key k => GetItem key (fun v => try_catch (k v) h)
  | UserAgent k => UserAgent (fun ua => try_catch (k ua) h)
  | Await c k => Await c (fun r => try_catch (k r) h)
  end.

(** [try { p } finally { f }] *)
Fixpoint try_finally {A} (p : Proc A) (f : Proc unit) : Proc A :=
  match p with
  | Ret a => bind f (fun _ => Ret a)
  | Throw e => bind f (fun _ => Throw e)
  | Do e k => Do e (fun thrown => try_finally (k thrown) f)
  | GetItem key k => GetItem key (fun v => try_finally (k v) f)
  | UserAgent k => UserAgent (fun ua => try_finally (k ua) f)
  | Await c k => Await c (fun r => try_finally (k r) f)
  end.

(** [await c]: a rejected promise throws at the [await]. *)
Definition await (c : Ext) : Proc (reply c) :=
  Await c (fun r => match r with Fulfilled v => Ret v | Rejected e => Throw e end).

(** A synchronous command.  It can throw ([localStorage.setItem] does, when
    the value cannot be converted or stored); the error is then thrown at
    this statement. *)
Definition do (e : Effect) : Proc unit :=
  Do e (fun thrown => match thrown with None => Ret tt | Some err => Throw err end).

(** [v.k], throwing [TypeError] when [v] is [undefined] or [null]. *)
Definition member (v : Json) (k : string) : Proc Json :=
  if nullish v then Throw TypeError else Ret (get v k).

Declare Scope proc_scope.
Delimit Scope proc_scope with proc.
Notation "x <- p ;; q" := (bind p (fun x => q))
  (at level 100, p at next level, right associativity) : proc_scope.
Notation "p ;; q" := (bind p (fun _ => q))
  (at level 100, right associativity) : proc_scope.
Open Scope proc_scope.

(** ** [services/firebase.js] *)

Module Firebase.

(** [/Android|webOS|iPhone|iPad|iPod|BlackBerry|IEMobile|Opera Mini/i.test(ua)] *)
Definition mobileUserAgent (ua : string) : bool :=
  test_any_ci
    ["Android"; "webOS"; "iPhone"; "iPad"; "iPod"; "BlackBerry"; "IEMobile"; "Opera Mini"] ua.

Definition isMobileDevice : Proc bool :=
  UserAgent (fun ua => Ret (mobileUserAgent ua)).

Definition user_summary (u : FirebaseUser) : FirebaseUser :=
  mkFirebaseUser (uid u) (email u) (displayName u) (photoURL u).

Definition checkRedirectResult : Proc (option SignInResult) :=
  try_catch
    (result <- await getRedirectResult ;;
     match result with
     | Some r =>
         tok <- await (getIdToken false) ;;
         Ret (Some (mkSignInResult (user_summary (credential_user r)) tok))
     | None => Ret None
     end)
    (fun _ => Ret None).

Definition errorMessage (error : Error) : Json :=
  if is_string (code error) "auth/popup-closed-by-user" then
    JString "Sign-in cancelled. Please try again."
  else if is_string (code error) "auth/popup-blocked" then
    JString "Popup blocked by browser. Please allow popups and try again."
  else if is_string (code error) "auth/operation-not-allowed" then
    JString "Google Sign-In is not enabled. Please contact support."
  else if is_string (code error) "auth/unauthorized-domain" then
    JString "This domain is not authorized for Google Sign-In."
  else if is_string (code error) "auth/network-request-failed" then
    JString "Network error. Please check your internet connection."
  else if is_string (code error) "auth/cancelled-popup-request" then
    JString "Only one popup request is allowed at a time."
  else Js.or_else (message error) (JString "Google sign-in failed. Please try again.").

(** [enhancedError]: [new Error(errorMessage)] with [code] copied over. *)
Definition enhancedError (error : Error) : Error :=
  mkError (message (newError (errorMessage error))) (code error) JUndefined.

Definition signInWithGoogle : Proc (option SignInResult) :=
  try_catch
    (mobile <- isMobileDevice ;;
     if mobile then
       await signInWithRedirect ;;
       Ret None
     else
       result <- await signInWithPopup ;;
       tok <- await (getIdToken true) ;;
       Ret (Some (mkSignInResult (user_summary (credential_user result)) tok)))
    (fun error => Throw (enhancedError error)).

Definition firebaseSignOut : Proc unit :=
  try_catch (await signOut) (fun error => Throw error).

End Firebase.

(** ** [context/AuthContext.jsx]

    React state ([user], [loading], [pendingGoogleAuth]) read inside a function
    is the value its closure captured at the render that created it, so it is
    an argument here; [localStorage] is read when the line runs.  [console.*]
    calls are left out, except for the property reads in their arguments that
    can throw. *)

Module AuthContext.

Definition getItem (key : string) : Proc (option string) := GetItem key Ret.

(** Truthiness of what [localStorage.getItem] returned. *)
Definition item_truthy (v : option string) : bool :=
  match v with Some s => string_nonempty s | None => false end.

Definition checkAuth : Proc unit :=
  accessToken <- getItem "accessToken" ;;
  refreshToken <- getItem "refreshToken" ;;
  if negb (item_truthy accessToken) || negb (item_truthy refreshToken) then
    do (setLoading false)
  else
    try_finally
      (try_catch
         (response_data <- await (api_get "/auth/me") ;;
          inner <- member response_data "data" ;;
          let userData := Js.or_else inner response_data in
          do (setUser userData))
         (fun _ =>
            do (removeItem "accessToken") ;;
            do (removeItem "refreshToken") ;;
            do (setUser JNull)))
      (do (setLoading false)).

(** The mount effect.  [checkAuth()] is started without [await]; it never
    rejects, so running it in sequence gives the same effects. *)
Definition initAuth : Proc unit :=
  handled <- try_catch
    (redirectResult <- Firebase.checkRedirectResult ;;
     match redirectResult with
     | Some r =>
         if string_nonempty (result_idToken r) then
           do (setPendingGoogleAuth (Some (mkPendingAuth
                 (JString (result_idToken r)) (email (result_user r))))) ;;
           do (setLoading false) ;;
           Ret true
         else Ret false
     | None => Ret false
     end)
    (fun _ => Ret false) ;;
  if handled : bool then Ret tt else checkAuth.

Definition loginWithEmail (email password : Json) : Proc unit :=
  try_catch
    (response_data <- await (api_post "/auth/login"
                        (JObject [("email", email); ("password", password)])) ;;
     inner <- member response_data "data" ;;
     let payload := Js.or_else inner response_data in
     access_token <- member payload "access_token" ;;
     refresh_token <- member payload "refresh_token" ;;
     userData <- member payload "user" ;;
     do (setItem "accessToken" access_token) ;;
     do (setItem "refreshToken" refresh_token) ;;
     do (setUser userData) ;;
     onboarded <- member userData "onboarded" ;;
     (if truthy (Js.or_else onboarded (get userData "onboarding_completed"))
      then do (navigate "/" false)
      else do (navigate "/onboarding" false)) ;;
     do (toast success (JString "Login successful!")))
    (fun err =>
       let errorMessage :=
         Js.or_else (opt (opt (response err) "data") "detail") (JString "Login failed") in
       do (toast error errorMessage) ;;
       Throw err).

Definition registerWithEmail (data : Json) : Proc unit :=
  try_finally
    (try_catch
       (do (setLoading true) ;;
        response_data <- await (api_post "/auth/register" data) ;;
        inner <- member response_data "data" ;;
        let payload := Js.or_else inner response_data in
        access_token <- member payload "access_token" ;;
        refresh_token <- member payload "refresh_token" ;;
        userData <- member payload "user" ;;
        do (setItem "accessToken" access_token) ;;
        do (setItem "refreshToken" refresh_token) ;;
        do (setUser userData) ;;
        do (navigate "/onboarding" false) ;;
        do (toast success (JString "Registration successful! Please complete your profile.")))
       (fun err =>
          let errorMessage :=
            Js.or_else (Js.or_else (Js.or_else (opt (opt (response err) "data") "detail")
                                (opt (opt (response err) "data") "message"))
                         (message err))
                  (JString "Registration failed. Please try again.") in
          do (toast error errorMessage) ;;
          Throw err))
    (do (setLoading false)).

(** [{ needsRoleSelection: true, userEmail }] *)
Definition needsRoleSelection (userEmail : Json) : Json :=
  JObject [("needsRoleSelection", JBool true); ("userEmail", userEmail)].

Definition loginWithGoogle (legacyCredential : Json) : Proc Json :=
  try_catch
    (obtained <-
       (if truthy legacyCredential then
          Ret (Some (legacyCredential, JNull))
        else
          result <- Firebase.signInWithGoogle ;;
          match result with
          | None => Ret None
          | Some r => Ret (Some (JString (result_idToken r), email (result_user r)))
          end) ;;
     match obtained with
     | None => Ret JUndefined
     | Some (idToken, userEmail) =>
         do (setPendingGoogleAuth (Some (mkPendingAuth idToken userEmail))) ;;
         Ret (needsRoleSelection userEmail)
     end)
    (fun err =>
       do (toast error (Js.or_else (message err) (JString "Login failed"))) ;;
       Throw err).

(** [const isOnboarded = userData.onboarded || userData.onboarding_completed] *)
Definition isOnboarded (userData : Json) : Json :=
  Js.or_else (get userData "onboarded") (get userData "onboarding_completed").

(** [const destination = isOnboarded ? '/' : '/onboarding'] *)
Definition destination (userData : Json) : string :=
  if truthy (isOnboarded userData) then "/" else "/onboarding".

(** [const errorMsg = error.response?.data?.detail ||
    error.response?.data?.message || 'Authentication failed'] *)
Definition errorMsg (err : Error) : Json :=
  Js.or_else (Js.or_else (opt (opt (response err) "data") "detail")
               (opt (opt (response err) "data") "message"))
        (JString "Authentication failed").

Definition handleGoogleLogin (idToken role : Json) : Proc unit :=
  try_catch
    (response_data <- await (api_post "/auth/google"
                        (JObject [("id_token", idToken); ("role", role)])) ;;
     data <- member response_data "data" ;;
     access_token <- member data "access_token" ;;
     refresh_token <- member data "refresh_token" ;;
     userData <- member data "user" ;;
     _ <- member userData "email" ;;
     do (setItem "accessToken" access_token) ;;
     do (setItem "refreshToken" refresh_token) ;;
     do (setUser userData) ;;
     do (toast success (JString "Welcome to Savitara!")) ;;
     do (navigate (destination userData) true))
    (fun err =>
       do (toast error (errorMsg err)) ;;
       Throw err).

Definition completeGoogleLogin (pendingGoogleAuth : option PendingAuth) (role : Json)
  : Proc unit :=
  match pendingGoogleAuth with
  | None => do (toast error (JString "No pending authentication. Please try again."))
  | Some pending =>
      try_catch
        (handleGoogleLogin (idToken pending) role ;;
         do (setPendingGoogleAuth None))
        (fun err =>
           do (toast error (Js.or_else (message err) (JString "Failed to complete login"))) ;;
           Throw err)
  end.

Definition cancelGoogleLogin : Proc unit :=
  do (setPendingGoogleAuth None).

Definition logout : Proc unit :=
  try_catch (await (api_post "/auth/logout" JUndefined) ;; Ret tt) (fun _ => Ret tt) ;;
  try_catch Firebase.firebaseSignOut (fun _ => Ret tt) ;;
  do (removeItem "accessToken") ;;
  do (removeItem "refreshToken") ;;
  do (setUser JNull) ;;
  do (navigate "/login" false) ;;
  do (toast info (JString "Logged out successfully")).

Definition updateUser (userData : Json) : Proc unit :=
  do (setUser userData).

Definition refreshUserData : Proc unit :=
  try_catch
    (response_data <- await (api_get "/auth/me") ;;
     inner <- member response_data "data" ;;
     let userData := Js.or_else inner response_data in
     do (setUser userData))
    (fun _ => Ret tt).

End AuthContext.

(** ** [components/RoleSelectionDialog.jsx] *)

Module RoleSelectionDialog.

(** The component's own state: [selectedRole], kept while it stays mounted. *)
Record State := mkState { selectedRole : string }.

(** [useState('grihasta')] *)
Definition mount : State := mkState "grihasta".

(** The two [Radio] options of the [RadioGroup]. *)
Inductive Radio := grihasta | acharya.

(** The [value] attribute of each option, which is [e.target.value]. *)
Definition value (r : Radio) : string :=
  match r with grihasta => "grihasta" | acharya => "acharya" end.

(** What the user can do to the open dialog.  [DialogClose] is the
    [Dialog]'s own [onClose] (backdrop click, escape key). *)
Inductive Action :=
| RadioChange (r : Radio)
| ClickGrihasta
| ClickAcharya
| ClickCancel
| ClickContinue
| DialogClose.

(** Calls made on the two callback props. *)
Inductive Callback :=
| onSelectRole (role : string)
| onClose.

Definition handleConfirm (s : State) : list Callback :=
  [onSelectRole (selectedRole s); onClose].

Definition handle (a : Action) (s : State) : State * list Callback :=
  match a with
  | RadioChange r => (mkState (value r), [])
  | ClickGrihasta => (mkState "grihasta", [])
  | ClickAcharya => (mkState "acharya", [])
  | ClickCancel => (s, [onClose])
  | ClickContinue => (s, handleConfirm s)
  | DialogClose => (s, [onClose])
  end.

(** The dialog after a sequence of user actions, with every callback made. *)
Fixpoint interact (actions : list Action) (s : State) : State * list Callback :=
  match actions with
  | [] => (s, [])
  | a :: rest =>
      let '(s1, out1) := handle a s in
      let '(s2, out2) := interact rest s1 in
      (s2, out1 ++ out2)
  end.

End RoleSelectionDialog.

(** ** The page: state, storage and the event loop *)

Inductive Event : Type :=
| Called (c : Ext)
| Did (e : Effect).

(** The provider's React state, the browser's [localStorage] and user agent,
    and the log of every command issued so far (oldest first). *)
Record World := mkWorld {
  user : Json;
  loading : bool;
  pendingGoogleAuth : option PendingAuth;
  localStorage : gmap string string;
  userAgent : string;
  trace : list Event }.

Definition log (ev : Event) (w : World) : World :=
  mkWorld (user w) (loading w) (pendingGoogleAuth w) (localStorage w) (userAgent w)
          (trace w ++ [ev]).

Definition store (f : gmap string string -> gmap string string) (w : World) : World :=
  mkWorld (user w) (loading w) (pendingGoogleAuth w) (f (localStorage w)) (userAgent w)
          (trace w).

Definition effect (e : Effect) (w : World) : World :=
  match e with
  | setUser u =>
      mkWorld u (loading w) (pendingGoogleAuth w) (localStorage w) (userAgent w) (trace w)
  | setLoading b =>
      mkWorld (user w) b (pendingGoogleAuth w) (localStorage w) (userAgent w) (trace w)
  | setPendingGoogleAuth p =>
      mkWorld (user w) (loading w) p (localStorage w) (userAgent w) (trace w)
  | setItem key v => store (insert key (toString v)) w
  | removeItem key => store (delete key) w
  | navigate _ _ | toast _ _ => w
  end.

Definition apply (e : Effect) (w : World) : World := log (Did e) (effect e w).

(** How the outside world settles the promises: the [n]-th awaited call
    [c] settles as [env n c]. *)
Definition Env : Type := nat -> forall c : Ext, Settled (reply c).

(** Run a procedure to completion, every awaited promise settled by [env]
    and every command carried out ([localStorage] accepts each write). *)
Fixpoint run {A} (p : Proc A) (env : Env) (n : nat) (w : World) : World * Settled A :=
  match p with
  | Ret a => (w, Fulfilled a)
  | Throw e => (w, Rejected e)
  | Do e k => run (k None) env n (apply e w)
  | GetItem key k => run (k (localStorage w !! key)) env n w
  | UserAgent k => run (k (userAgent w)) env n w
  | Await c k => run (k (env n c)) env (S n) (log (Called c) w)
  end.

(** A procedure after its synchronous segment: finished, or suspended at an
    [await]. *)
Inductive Status (A : Type) : Type :=
| Finished (r : Settled A)
| Suspended (c : Ext) (k : Settled (reply c) -> Proc A).
Arguments Finished {A} r.
Arguments Suspended {A} c k.

(** Run up to the next [await]: one uninterrupted turn of the event loop,
    every command carried out. *)
Fixpoint turn {A} (p : Proc A) (w : World) : World * Status A :=
  match p with
  | Ret a => (w, Finished (Fulfilled a))
  | Throw e => (w, Finished (Rejected e))
  | Do e k => turn (k None) (apply e w)
  | GetItem key k => turn (k (localStorage w !! key)) w
  | UserAgent k => turn (k (userAgent w)) w
  | Await c k => (log (Called c) w, Suspended c k)
  end.

(** A suspended invocation: the awaited call and the rest of the function. *)
Record Task := mkTask { awaited : Ext; rest : Settled (reply awaited) -> Proc unit }.

(** The functions the provider hands out through the context value, and the
    mount effect. *)
Inductive Handler : Type :=
| HInitAuth
| HLoginWithGoogle (legacyCredential : Json)
| HCompleteGoogleLogin (role : Json)
| HCancelGoogleLogin
| HLoginWithEmail (email password : Json)
| HRegisterWithEmail (data : Json)
| HLogout
| HUpdateUser (userData : Json)
| HRefreshUserData.

(** The body of a handler, closed over the state of the current render. *)
Definition body (h : Handler) (w : World) : Proc unit :=
  match h with
  | HInitAuth => AuthContext.initAuth
  | HLoginWithGoogle legacyCredential =>
      AuthContext.loginWithGoogle legacyCredential ;; Ret tt
  | HCompleteGoogleLogin role =>
      AuthContext.completeGoogleLogin (pendingGoogleAuth w) role
  | HCancelGoogleLogin => AuthContext.cancelGoogleLogin
  | HLoginWithEmail email password => AuthContext.loginWithEmail email password
  | HRegisterWithEmail data => AuthContext.registerWithEmail data
  | HLogout => AuthContext.logout
  | HUpdateUser userData => AuthContext.updateUser userData
  | HRefreshUserData => AuthContext.refreshUserData
  end.

Record Page := mkPage { world : World; tasks : list Task }.

(** What can happen next on the page. *)
Inductive Step : Type :=
| Invoke (h : Handler)
| Settle (i : nat) (r : forall c : Ext, Settled (reply c))
| Reload.

Definition park (st : Status unit) (ts : list Task) : list Task :=
  match st with
  | Finished _ => ts
  | Suspended c k => ts ++ [mkTask c k]
  end.

(** A fresh page load: React state is initial, [localStorage] survives. *)
Definition fresh (storage : gmap string string) (ua : string) (tr : list Event) : World :=
  mkWorld JNull true None storage ua tr.

Definition step (s : Step) (pg : Page) : Page :=
  match s with
  | Invoke h =>
      let '(w, st) := turn (body h (world pg)) (world pg) in
      mkPage w (park st (tasks pg))
  | Settle i r =>
      match tasks pg !! i with
      | None => pg
      | Some t =>
          let '(w, st) := turn (rest t (r (awaited t))) (world pg) in
          mkPage w (park st (delete i (tasks pg)))
      end
  | Reload =>
      mkPage (fresh (localStorage (world pg)) (userAgent (world pg)) (trace (world pg))) []
  end.

Definition steps (ss : list Step) (pg : Page) : Page := fold_left (fun pg s => step s pg) ss pg.

(** The page as first loaded in a browser whose storage is [storage]. *)
Definition load (storage : gmap string string) (ua : string) : Page :=
  mkPage (fresh storage ua []) [].

(** ** Storage writes that throw

    [localStorage.setItem(key, value)] throws when [String(value)] throws and
    when the new value does not fit the quota; nothing is written then and
    the error goes to the enclosing [catch]. *)

(** What a write throws, if it throws, given the storage, the key and the
    value passed. *)
Definition Thrower : Type := gmap string string -> string -> Json -> option Error.

(** A storage that accepts every write. *)
Definition reliable : Thrower := fun _ _ _ => None.

(** The browser's [setItem], for a quota rule [fits] on the storage, the key
    and the converted value. *)
Definition browser (fits : gmap string string -> string -> string -> bool) : Thrower :=
  fun m key value =>
    if convertible value then
      if fits m key (toString value) then None else Some QuotaExceededError
    else Some ConversionError.

(** Only [setItem] throws. *)
Definition thrown (t : Thrower) (w : World) (e : Effect) : option Error :=
  match e with
  | setItem key value => t (localStorage w) key value
  | _ => None
  end.

(** [run] where writes can throw: a command that throws changes nothing. *)
Fixpoint run_in {A} (t : Thrower) (p : Proc A) (env : Env) (n : nat) (w : World)
  : World * Settled A :=
  match p with
  | Ret a => (w, Fulfilled a)
  | Throw e => (w, Rejected e)
  | Do e k =>
      match thrown t w e with
      | Some err => run_in t (k (Some err)) env n w
      | None => run_in t (k None) env n (apply e w)
      end
  | GetItem key k => run_in t (k (localStorage w !! key)) env n w
  | UserAgent k => run_in t (k (userAgent w)) env n w
  | Await c k => run_in t (k (env n c)) env (S n) (log (Called c) w)
  end.

(** [turn] where writes can throw. *)
Fixpoint turn_in {A} (t : Thrower) (p : Proc A) (w : World) : World * Status A :=
  match p with
  | Ret a => (w, Finished (Fulfilled a))
  | Throw e => (w, Finished (Rejected e))
  | Do e k =>
      match thrown t w e with
      | Some err => turn_in t (k (Some err)) w
      | None => turn_in t (k None) (apply e w)
      end
  | GetItem key k => turn_in t (k (localStorage w !! key)) w
  | UserAgent k => turn_in t (k (userAgent w)) w
  | Await c k => (log (Called c) w, Suspended c k)
  end.

(** [step] and [steps] where writes can throw. *)
Definition step_in (t : Thrower) (s : Step) (pg : Page) : Page :=
  match s with
  | Invoke h =>
      let '(w, st) := turn_in t (body h (world pg)) (world pg) in
      mkPage w (park st (tasks pg))
  | Settle i r =>
      match tasks pg !! i with
      | None => pg
      | Some task =>
          let '(w, st) := turn_in t (rest task (r (awaited task))) (world pg) in
          mkPage w (park st (delete i (tasks pg)))
      end
  | Reload =>
      mkPage (fresh (localStorage (world pg)) (userAgent (world pg)) (trace (world pg))) []
  end.

Definition steps_in (t : Thrower) (ss : list Step) (pg : Page) : Page :=
  fold_left (fun pg s => step_in t s pg) ss pg.

(** ** Vocabulary of the properties *)

(** The backend exchange request: [POST /auth/google { id_token, role }]. *)
Definition exchange (idToken role : Json) : Ext :=
  api_post "/auth/google" (JObject [("id_token", idToken); ("role", role)]).

(** What a settled exchange request must carry for [handleGoogleLogin] to go
    through: a fulfilled response whose body, [data] and [data.user] are all
    objects to read from.  Gives [(access_token, refresh_token, user)]. *)
Definition exchanged (r : Settled Json) : option (Json * Json * Json) :=
  match r with
  | Fulfilled response_data =>
      if nullish response_data then None
      else
        let data := get response_data "data" in
        if nullish data then None
        else if nullish (get data "user") then None
        else Some (get data "access_token", get data "refresh_token", get data "user")
  | Rejected _ => None
  end.

(** The error a settled exchange request fails with, when it does: the
    rejection, or the [TypeError] of reading a missing part of the response. *)
Definition failure (r : Settled Json) : Error :=
  match r with Rejected e => e | Fulfilled _ => TypeError end.

(** The effects of [handleGoogleLogin] once the exchange has gone through. *)
Definition sign_in (access_token refresh_token userData : Json) : list Effect :=
  [ setItem "accessToken" access_token;
    setItem "refreshToken" refresh_token;
    setUser userData;
    toast success (JString "Welcome to Savitara!");
    navigate (AuthContext.destination userData) true ].

(** A list of effects performed one after the other, in one turn. *)
Definition perform (es : list Effect) (w : World) : World :=
  fold_left (fun w e => apply e w) es w.

(** The events logged since [w], when [w'] extends it. *)
Definition since (w w' : World) : list Event := drop (length (trace w)) (trace w').

Definition is_backend_call (ev : Event) : bool :=
  match ev with
  | Called (api_post _ _) | Called (api_get _) => true
  | _ => false
  end.

Definition is_navigation (ev : Event) : bool :=
  match ev with Did (navigate _ _) => true | _ => false end.

Definition writes_pending (ev : Event) : bool :=
  match ev with Did (setPendingGoogleAuth (Some _)) => true | _ => false end.

(** Both session tokens are stored, or neither is. *)
Definition paired (m : gmap string string) : Prop :=
  (is_Some (m !! "accessToken") /\ is_Some (m !! "refreshToken")) \/
  (m !! "accessToken" = None /\ m !! "refreshToken" = None).

(** A refresh token is never stored without an access token. *)
Definition ordered (m : gmap string string) : Prop :=
  is_Some (m !! "refreshToken") -> is_Some (m !! "accessToken").

(** [orders p w]: run from [w] with writes that may throw, the procedure [p]
    leaves the tokens [ordered] at every point where the event loop can take
    over, provided they are whenever it is resumed. *)
Fixpoint orders {A} (p : Proc A) (w : World) : Prop :=
  match p with
  | Ret _ | Throw _ => ordered (localStorage w)
  | Do e k =>
      orders (k None) (apply e w) /\
      match e with
      | setItem _ _ => forall err, orders (k (Some err)) w
      | _ => True
      end
  | GetItem key k => orders (k (localStorage w !! key)) w
  | UserAgent k => orders (k (userAgent w)) w
  | Await c k =>
      ordered (localStorage w) /\
      forall r w', ordered (localStorage w') -> orders (k r) w'
  end.

Definition task_orders (t : Task) : Prop :=
  forall r w, ordered (localStorage w) -> orders (rest t r) w.

(** The user an answer to [GET /auth/me] identifies, when it does:
    [response.data.data || response.data] of a fulfilled request with a body. *)
Definition identified (r : Settled Json) : option Json :=
  match r with
  | Fulfilled response_data =>
      if nullish response_data then None
      else Some (Js.or_else (get response_data "data") response_data)
  | Rejected _ => None
  end.

(** A provider that grants the popup sign-in with credential [uc] and
    identity token [tok] (and lets every other call succeed). *)
Definition grants (uc : UserCredential) (tok : string) : forall c : Ext, Settled (reply c) :=
  fun c =>
    match c with
    | api_post _ _ => Fulfilled JNull
    | api_get _ => Fulfilled JNull
    | signInWithPopup => Fulfilled uc
    | signInWithRedirect => Fulfilled tt
    | getRedirectResult => Fulfilled None
    | getIdToken _ => Fulfilled tok
    | signOut => Fulfilled tt
    end.

(** An action of the user that ends the prompt. *)
Definition dismisses (a : RoleSelectionDialog.Action) : bool :=
  match a with
  | RoleSelectionDialog.ClickCancel | RoleSelectionDialog.ClickContinue
  | RoleSelectionDialog.DialogClose => true
  | RoleSelectionDialog.RadioChange _ | RoleSelectionDialog.ClickGrihasta
  | RoleSelectionDialog.ClickAcharya => false
  end.

(** Exactly one of the two callbacks was called, once. *)
Definition exactly_one_outcome (calls : list RoleSelectionDialog.Callback) : Prop :=
  exists c, calls = [c].

(** [safe p w]: run from [w], the procedure [p] leaves the tokens paired at
    every point where the event loop can take over (each [await], and the
    end), provided they are paired whenever it is resumed. *)
Fixpoint safe {A} (p : Proc A) (w : World) : Prop :=
  match p with
  | Ret _ | Throw _ => paired (localStorage w)
  | Do e k => safe (k None) (apply e w)
  | GetItem key k => safe (k (localStorage w !! key)) w
  | UserAgent k => safe (k (userAgent w)) w
  | Await c k =>
      paired (localStorage w) /\
      forall r w', paired (localStorage w') -> safe (k r) w'
  end.

Definition task_safe (t : Task) : Prop :=
  forall r w, paired (localStorage w) -> safe (rest t r) w.

Definition consistent (pg : Page) : Prop :=
  paired (localStorage (world pg)) /\ Forall task_safe (tasks pg).

(** ** Concrete pages used in examples *)

Module Sample.

Definition desktop : string := "Mozilla/5.0 (Windows NT 10.0; Win64; x64)".

(** The credential of a popup sign-in: [{ idToken: "tok123", userEmail: "a@x.com" }]. *)
Definition tok123 : PendingAuth := mkPendingAuth (JString "tok123") (JString "a@x.com").

(** A login page with nothing stored and [held] in [pendingGoogleAuth]. *)
Definition login_page (held : option PendingAuth) : World :=
  mkWorld JNull false held ∅ desktop [].

(** A page of a signed-in browser: both tokens stored. *)
Definition signed_in_storage : gmap string string :=
  <["refreshToken" := "R0"]> (<["accessToken" := "A0"]> ∅).

Definition networkError : Error := mkError (JString "Network Error") JUndefined JUndefined.

(** The characters a storage holds: keys and values together. *)
Definition footprint (m : gmap string string) : nat :=
  map_fold (fun key value total => (String.length key + String.length value + total)%nat) 0%nat m.

(** A quota of [limit] characters. *)
Definition quota (limit : nat) (m : gmap string string) (key value : string) : bool :=
  (footprint (<[key := value]> m) <=? limit)%nat.

(** Every request and SDK call fails. *)
Definition offline : Env := fun _ _ => Rejected networkError.

(** The success envelope of the backend for a given user record. *)
Definition envelope (userData : Json) : Json :=
  JObject [("success", JBool true);
           ("data", JObject [("access_token", JString "A1");
                             ("refresh_token", JString "R1");
                             ("user", userData)]);
           ("message", JString "Login successful")].

Definition popupUser : UserCredential :=
  mkUserCredential (mkFirebaseUser (JString "u1") (JString "a@x.com") JNull JNull).

(** Every request succeeds, the backend answering with [userData]. *)
Definition online (userData : Json) : forall c : Ext, Settled (reply c) :=
  fun c =>
    match c with
    | api_post _ _ => Fulfilled (envelope userData)
    | api_get _ => Fulfilled (envelope userData)
    | signInWithPopup => Fulfilled popupUser
    | signInWithRedirect => Fulfilled tt
    | getRedirectResult => Fulfilled None
    | getIdToken _ => Fulfilled "tok123"
    | signOut => Fulfilled tt
    end.

(** A phone's user agent. *)
Definition phone : string :=
  "Mozilla/5.0 (Linux; Android 13; Pixel 7) AppleWebKit/537.36 Mobile Safari/537.36".

(** The page load that follows a provider redirect: [getRedirectResult]
    yields the signed-in user. *)
Definition returning : forall c : Ext, Settled (reply c) :=
  fun c =>
    match c with
    | api_post _ _ => Rejected networkError
    | api_get _ => Rejected networkError
    | signInWithPopup => Rejected networkError
    | signInWithRedirect => Fulfilled tt
    | getRedirectResult => Fulfilled (Some popupUser)
    | getIdToken _ => Fulfilled "tok123"
    | signOut => Fulfilled tt
    end.

Definition newUser : Json :=
  JObject [("id", JString "507f"); ("email", JString "a@x.com");
           ("role", JString "acharya"); ("onboarded", JBool false)].

(** A success envelope whose [refresh_token] is an object with a [toString]
    entry, which [String()] cannot convert. *)
Definition oddEnvelope : Json :=
  JObject [("success", JBool true);
           ("data", JObject [("access_token", JString "A1");
                             ("refresh_token", JObject [("toString", JNull)]);
                             ("user", newUser)])].

(** The backend answers every request with [oddEnvelope]. *)
Definition odd : forall c : Ext, Settled (reply c) :=
  fun c =>
    match c with
    | api_post _ _ => Fulfilled oddEnvelope
    | api_get _ => Fulfilled oddEnvelope
    | signInWithPopup => Fulfilled popupUser
    | signInWithRedirect => Fulfilled tt
    | getRedirectResult => Fulfilled None
    | getIdToken _ => Fulfilled "tok123"
    | signOut => Fulfilled tt
    end.


End Sample.

(** ** Vocabulary of the further properties *)

(** The external calls among logged events, in order. *)
Definition called (evs : list Event) : list Ext :=
  omap (fun ev => match ev with Called c => Some c | Did _ => None end) evs.

(** The effects among logged events, in order. *)
Definition performed (evs : list Event) : list Effect :=
  omap (fun ev => match ev with Did e => Some e | Called _ => None end) evs.

(** Nothing of the page changed but the log: React state and storage are
    as they were. *)
Definition same_state (w w' : World) : Prop :=
  user w' = user w /\ loading w' = loading w /\
  pendingGoogleAuth w' = pendingGoogleAuth w /\ localStorage w' = localStorage w.

(** The tokens of the pattern in [isMobileDevice]. *)
Definition mobileTokens : list string :=
  ["Android"; "webOS"; "iPhone"; "iPad"; "iPod"; "BlackBerry"; "IEMobile"; "Opera Mini"].

(** The error codes [signInWithGoogle] has a message of its own for. *)
Definition knownCodes : list string :=
  ["auth/popup-closed-by-user"; "auth/popup-blocked"; "auth/operation-not-allowed";
   "auth/unauthorized-domain"; "auth/network-request-failed";
   "auth/cancelled-popup-request"].

(** [response.data.data || response.data], the unwrapping of a response body
    in [checkAuth], [loginWithEmail], [registerWithEmail], [refreshUserData]. *)
Definition unwrap (response_data : Json) : Json :=
  Js.or_else (get response_data "data") response_data.

(** The request [loginWithEmail] sends. *)
Definition login_request (email password : Json) : Ext :=
  api_post "/auth/login" (JObject [("email", email); ("password", password)]).


(** Calls of the dialog come in the shapes [onClose()] and
    [onSelectRole(role); onClose()]. *)
Fixpoint closes_after_select (calls : list RoleSelectionDialog.Callback) : bool :=
  match calls with
  | [] => true
  | RoleSelectionDialog.onClose :: calls' => closes_after_select calls'
  | RoleSelectionDialog.onSelectRole _ :: RoleSelectionDialog.onClose :: calls' =>
      closes_after_select calls'
  | RoleSelectionDialog.onSelectRole _ :: _ => false
  end.

Definition is_select (c : RoleSelectionDialog.Callback) : bool :=
  match c with RoleSelectionDialog.onSelectRole _ => true | _ => false end.

Definition is_continue (a : RoleSelectionDialog.Action) : bool :=
  match a with RoleSelectionDialog.ClickContinue => true | _ => false end.

(** [keeps key p]: nothing [p] can do writes or removes the [localStorage]
    entry [key]. *)
Fixpoint keeps {A} (key : string) (p : Proc A) : Prop :=
  match p with
  | Ret _ | Throw _ => True
  | Do e k =>
      match e with
      | setItem key' _ | removeItem key' => key' <> key
      | _ => True
      end /\ forall thrown, keeps key (k thrown)
  | GetItem _ k => forall v, keeps key (k v)
  | UserAgent k => forall ua, keeps key (k ua)
  | Await c k => forall r, keeps key (k r)
  end.

Definition task_keeps (key : string) (t : Task) : Prop :=
  forall r, keeps key (rest t r).

(** ** Reasoning support *)

#[global] Arguments nullish : simpl never.
#[global] Arguments truthy : simpl never.
#[global] Arguments get : simpl never.
#[global] Arguments opt : simpl never.
#[global] Arguments Js.or_else : simpl never.
#[global] Arguments toString : simpl never.
#[global] Arguments test_any_ci : simpl never.
#[global] Arguments Firebase.mobileUserAgent : simpl never.
#[global] Arguments AuthContext.destination : simpl never.
#[global] Arguments AuthContext.errorMsg : simpl never.
#[global] Arguments apply : simpl never.
#[global] Arguments log : simpl never.

(** Case analysis on whatever the next branch of the code tests. *)
Ltac branch :=
  match goal with
  | |- context [match ?x with _ => _ end] => destruct x eqn:?
  end.

Ltac branches := cbn; repeat (branch; cbn).

Section Projections.
Variables (e : Effect) (ev : Event) (w : World).

Lemma trace_log : trace (log ev w) = trace w ++ [ev].
Proof. reflexivity. Qed.
Lemma user_log : user (log ev w) = user w.
Proof. reflexivity. Qed.
Lemma loading_log : loading (log ev w) = loading w.
Proof. reflexivity. Qed.
Lemma pending_log : pendingGoogleAuth (log ev w) = pendingGoogleAuth w.
Proof. reflexivity. Qed.
Lemma storage_log : localStorage (log ev w) = localStorage w.
Proof. reflexivity. Qed.
Lemma userAgent_log : userAgent (log ev w) = userAgent w.
Proof. reflexivity. Qed.

Lemma trace_apply : trace (apply e w) = trace w ++ [Did e].
Proof. by destruct e. Qed.
Lemma user_apply :
  user (apply e w) = match e with setUser u => u | _ => user w end.
Proof. by destruct e. Qed.
Lemma loading_apply :
  loading (apply e w) = match e with setLoading b => b | _ => loading w end.
Proof. by destruct e. Qed.
Lemma pending_apply :
  pendingGoogleAuth (apply e w) =
  match e with setPendingGoogleAuth p => p | _ => pendingGoogleAuth w end.
Proof. by destruct e. Qed.
Lemma storage_apply :
  localStorage (apply e w) =
  match e with
  | setItem key v => <[key := toString v]> (localStorage w)
  | removeItem key => delete key (localStorage w)
  | _ => localStorage w
  end.
Proof. by destruct e. Qed.
Lemma userAgent_apply : userAgent (apply e w) = userAgent w.
Proof. by destruct e. Qed.
End Projections.

Create Rewrite HintDb world.
#[global] Hint Rewrite trace_log user_log loading_log pending_log storage_log userAgent_log
  trace_apply user_apply loading_apply pending_apply storage_apply userAgent_apply : world.

(** Read the fields of a world built by [apply] and [log]. *)
Ltac fields :=
  unfold perform; cbn [fold_left fst snd world tasks];
  autorewrite with world; cbv beta iota; rewrite <- ?app_assoc; cbn [app].

Lemma trace_perform es w : trace (perform es w) = trace w ++ map Did es.
Proof.
  revert w. induction es as [|e es IH]; intros w; cbn.
  - by rewrite app_nil_r.
  - unfold perform in IH. rewrite IH, trace_apply. by rewrite <- app_assoc.
Qed.

Lemma since_app w w' evs : trace w' = trace w ++ evs -> since w w' = evs.
Proof. intros H. unfold since. rewrite H. apply drop_app_length. Qed.

Lemma paired_both (m : gmap string string) a r :
  paired (<["refreshToken" := r]> (<["accessToken" := a]> m)).
Proof. left. split; simplify_map_eq; eauto. Qed.

Lemma paired_neither (m : gmap string string) :
  paired (delete "refreshToken" (delete "accessToken" m)).
Proof. right. split; by simplify_map_eq. Qed.

(** [run] is [turn] repeated, each suspension settled by the environment. *)
Lemma run_turn {A} (p : Proc A) env n w :
  run p env n w =
  match turn p w with
  | (w', Finished r) => (w', r)
  | (w', Suspended c k) => run (k (env n c)) env (S n) w'
  end.
Proof.
  revert n w. induction p as [a|e|e k IH|key k IH|k IH|c k IH]; intros n w; cbn; auto.
Qed.

(** The two turns of [handleGoogleLogin]: it issues the exchange request and
    suspends; when the request settles it finishes within that turn. *)
Lemma handleGoogleLogin_turns idToken role w :
  exists k,
    turn (AuthContext.handleGoogleLogin idToken role) w =
      (log (Called (exchange idToken role)) w, Suspended (exchange idToken role) k) /\
    forall r w1,
      turn (k r) w1 =
      match exchanged r with
      | Some (a, rt, u) => (perform (sign_in a rt u) w1, Finished (Fulfilled tt))
      | None => (perform [toast error (AuthContext.errorMsg (failure r))] w1,
                 Finished (Rejected (failure r)))
      end.
Proof.
  eexists. split; [reflexivity|].
  intros r w1. unfold exchanged, member. destruct r as [response_data|e]; branches; reflexivity.
Qed.

Lemma completeGoogleLogin_turns pending role w :
  exists k,
    turn (AuthContext.completeGoogleLogin (Some pending) role) w =
      (log (Called (exchange (idToken pending) role)) w,
       Suspended (exchange (idToken pending) role) k) /\
    forall r w1,
      turn (k r) w1 =
      match exchanged r with
      | Some (a, rt, u) =>
          (perform (sign_in a rt u ++ [setPendingGoogleAuth None]) w1, Finished (Fulfilled tt))
      | None =>
          (perform [toast error (AuthContext.errorMsg (failure r));
                    toast error (Js.or_else (message (failure r))
                                       (JString "Failed to complete login"))] w1,
           Finished (Rejected (failure r)))
      end.
Proof.
  eexists. split; [reflexivity|].
  intros r w1. unfold exchanged, member. destruct r as [response_data|e]; branches; reflexivity.
Qed.

Lemma run_completeGoogleLogin pending role env n w :
  run (AuthContext.completeGoogleLogin (Some pending) role) env n w =
  let w1 := log (Called (exchange (idToken pending) role)) w in
  let r := env n (exchange (idToken pending) role) in
  match exchanged r with
  | Some (a, rt, u) =>
      (perform (sign_in a rt u ++ [setPendingGoogleAuth None]) w1, Fulfilled tt)
  | None =>
      (perform [toast error (AuthContext.errorMsg (failure r));
                toast error (Js.or_else (message (failure r))
                                   (JString "Failed to complete login"))] w1,
       Rejected (failure r))
  end.
Proof.
  destruct (completeGoogleLogin_turns pending role w) as (k & H1 & H2).
  rewrite run_turn, H1. cbv zeta.
  rewrite run_turn, H2.
  destruct (exchanged _) as [[[a rt] u]|]; reflexivity.
Qed.

(** ** The scenarios of the sign-in flow, run on the model *)

(** Popup sign-in on a desktop browser: [loginWithGoogle()] asks for role
    selection and the credential is held. *)
Example popup_sign_in_holds_credential :
  run (AuthContext.loginWithGoogle JNull) (fun _ => Sample.online Sample.newUser) 0
      (Sample.login_page None) =
    (perform [setPendingGoogleAuth (Some Sample.tok123)]
       (log (Called (getIdToken true))
          (log (Called signInWithPopup) (Sample.login_page None))),
     Fulfilled (AuthContext.needsRoleSelection (JString "a@x.com"))).
Proof. reflexivity. Qed.

(** Completing with role [acharya] posts the held token with the role, stores
    the returned tokens and navigates a new user to onboarding. *)
Example complete_as_acharya :
  since (Sample.login_page (Some Sample.tok123))
    (fst (run (body (HCompleteGoogleLogin (JString "acharya"))
                    (Sample.login_page (Some Sample.tok123)))
              (fun _ => Sample.online Sample.newUser) 0
              (Sample.login_page (Some Sample.tok123)))) =
    [ Called (exchange (JString "tok123") (JString "acharya"));
      Did (setItem "accessToken" (JString "A1"));
      Did (setItem "refreshToken" (JString "R1"));
      Did (setUser Sample.newUser);
      Did (toast success (JString "Welcome to Savitara!"));
      Did (navigate "/onboarding" true);
      Did (setPendingGoogleAuth None) ].
Proof. reflexivity. Qed.

(** On a mobile user agent [loginWithGoogle()] hands over to the redirect and
    writes nothing; on the page loaded after the redirect, the mount effect
    recovers the credential into the holder without a new click. *)
Example redirect_sign_in_recovered_on_load :
  Firebase.mobileUserAgent Sample.phone = true /\
  map awaited (tasks (step (Invoke (HLoginWithGoogle JNull)) (load ∅ Sample.phone)))
    = [signInWithRedirect] /\
  pendingGoogleAuth
    (fst (run AuthContext.initAuth (fun _ => Sample.returning) 0 (fresh ∅ Sample.phone [])))
    = Some Sample.tok123.
Proof. repeat split; reflexivity. Qed.

(** ** P1: the pending credential after completion or cancellation *)




(** ** P2: completing with nothing pending *)

(** C2, counterexample.  With the holder empty, [completeGoogleLogin("grihasta")]
    does not fail: its promise is fulfilled, no error reaches the caller. *)
Lemma complete_without_pending_resolves :
  snd (run (body (HCompleteGoogleLogin (JString "grihasta")) (Sample.login_page None))
           Sample.offline 0 (Sample.login_page None))
    = Fulfilled tt.
Proof. reflexivity. Qed.

(** C2, amended.  With the holder empty, [completeGoogleLogin(role)] shows the
    error toast "No pending authentication. Please try again." and returns
    normally; it does nothing else, so no [POST /auth/google] is issued. *)
Theorem complete_without_pending w role (env : Env) n :
  pendingGoogleAuth w = None ->
  run (body (HCompleteGoogleLogin role) w) env n w =
    (apply (toast error (JString "No pending authentication. Please try again.")) w,
     Fulfilled tt) /\
  filter is_backend_call (since w (fst (run (body (HCompleteGoogleLogin role) w) env n w))) = [].
Proof.
  intros Hnone. cbn [body]. rewrite Hnone. split; [reflexivity|].
  cbn [AuthContext.completeGoogleLogin do run fst].
  erewrite since_app by apply trace_apply. reflexivity.
Qed.

Lemma complete_without_pending_witness :
  run (body (HCompleteGoogleLogin (JString "grihasta")) (Sample.login_page None))
      Sample.offline 0 (Sample.login_page None) =
    (apply (toast error (JString "No pending authentication. Please try again."))
           (Sample.login_page None), Fulfilled tt) /\
  filter is_backend_call
    (since (Sample.login_page None)
       (fst (run (body (HCompleteGoogleLogin (JString "grihasta")) (Sample.login_page None))
                 Sample.offline 0 (Sample.login_page None)))) = [].
Proof.
  exact (complete_without_pending (Sample.login_page None) (JString "grihasta")
           Sample.offline 0 eq_refl).
Defined.

(** ** Ordering of the success path *)


(** ** P3: the navigation target *)




(** ** Stored tokens whose identity check fails *)

Lemma run_checkAuth (env : Env) n w access refresh :
  localStorage w !! "accessToken" = Some access -> string_nonempty access = true ->
  localStorage w !! "refreshToken" = Some refresh -> string_nonempty refresh = true ->
  run AuthContext.checkAuth env n w =
  let w1 := log (Called (api_get "/auth/me")) w in
  match identified (env n (api_get "/auth/me")) with
  | Some userData => (perform [setUser userData; setLoading false] w1, Fulfilled tt)
  | None =>
      (perform [removeItem "accessToken"; removeItem "refreshToken"; setUser JNull;
                setLoading false] w1, Fulfilled tt)
  end.
Proof.
  intros Ha Hna Hr Hnr. unfold AuthContext.checkAuth, AuthContext.getItem, member.
  cbn. rewrite Ha, Hr. cbn. rewrite Hna, Hnr. cbn.
  unfold identified. destruct (env n (api_get "/auth/me")) as [response_data|e]; cbn.
  - destruct (nullish response_data); reflexivity.
  - reflexivity.
Qed.

(** C7.  When both tokens are stored and the identity check [GET /auth/me]
    fails (the request is rejected, or its response has no body to read),
    [checkAuth] removes both tokens and sets the user to [null]; it also ends
    the loading state and does not throw. *)
Theorem failed_identity_check_clears_session (env : Env) n w access refresh :
  localStorage w !! "accessToken" = Some access -> access <> "" ->
  localStorage w !! "refreshToken" = Some refresh -> refresh <> "" ->
  identified (env n (api_get "/auth/me")) = None ->
  localStorage (fst (run AuthContext.checkAuth env n w)) !! "accessToken" = None /\
  localStorage (fst (run AuthContext.checkAuth env n w)) !! "refreshToken" = None /\
  user (fst (run AuthContext.checkAuth env n w)) = JNull /\
  loading (fst (run AuthContext.checkAuth env n w)) = false /\
  snd (run AuthContext.checkAuth env n w) = Fulfilled tt.
Proof.
  intros Ha Hna Hr Hnr Hfail.
  rewrite (run_checkAuth env n w access refresh Ha) by (by destruct access, refresh).
  cbv zeta. rewrite Hfail. fields. by simplify_map_eq.
Qed.

Lemma failed_identity_check_clears_session_witness :
  localStorage
    (fst (run AuthContext.checkAuth Sample.offline 0
              (fresh Sample.signed_in_storage Sample.desktop []))) !! "accessToken" = None /\
  localStorage
    (fst (run AuthContext.checkAuth Sample.offline 0
              (fresh Sample.signed_in_storage Sample.desktop []))) !! "refreshToken" = None /\
  user (fst (run AuthContext.checkAuth Sample.offline 0
                 (fresh Sample.signed_in_storage Sample.desktop []))) = JNull /\
  loading (fst (run AuthContext.checkAuth Sample.offline 0
                    (fresh Sample.signed_in_storage Sample.desktop []))) = false /\
  snd (run AuthContext.checkAuth Sample.offline 0
           (fresh Sample.signed_in_storage Sample.desktop [])) = Fulfilled tt.
Proof.
  apply (failed_identity_check_clears_session Sample.offline 0
           (fresh Sample.signed_in_storage Sample.desktop []) "A0" "R0").
  - reflexivity.
  - discriminate.
  - reflexivity.
  - discriminate.
  - reflexivity.
Defined.

(** ** The role-selection prompt *)

Module Prompt.
Import RoleSelectionDialog.

(** C8, counterexample.  On the freshly mounted dialog, the single user action
    "Continue" calls both callbacks, [onSelectRole("grihasta")] and then
    [onClose()]: not exactly one outcome. *)
Lemma continue_calls_both :
  snd (handle ClickContinue mount) = [onSelectRole "grihasta"; onClose] /\
  ~ exactly_one_outcome (snd (handle ClickContinue mount)).
Proof.
  split; [reflexivity|]. intros [c Hc]. discriminate Hc.
Qed.

(** C8, amended.  The dialog mounts with [grihasta] selected, and the
    selection is always one of the two options.  No dismissing action is
    silent: "Cancel" and the dialog's own close call [onClose()] alone, and
    "Continue" calls [onSelectRole(role)] with the currently selected option
    and then also [onClose()].  Choosing an option calls nothing. *)
Theorem prompt_outcomes (actions : list Action) (a : Action) :
  selectedRole mount = "grihasta" /\
  (selectedRole (fst (interact actions mount)) = "grihasta" \/
   selectedRole (fst (interact actions mount)) = "acharya") /\
  snd (handle a (fst (interact actions mount))) =
    match a with
    | ClickCancel | DialogClose => [onClose]
    | ClickContinue => [onSelectRole (selectedRole (fst (interact actions mount))); onClose]
    | RadioChange _ | ClickGrihasta | ClickAcharya => []
    end /\
  (if dismisses a
   then snd (handle a (fst (interact actions mount))) <> [] /\
        fst (handle a (fst (interact actions mount))) = fst (interact actions mount)
   else True).
Proof.
  split; [reflexivity|].
  assert (Hsel : forall s, selectedRole s = "grihasta" \/ selectedRole s = "acharya" ->
                 selectedRole (fst (interact actions s)) = "grihasta" \/
                 selectedRole (fst (interact actions s)) = "acharya").
  { induction actions as [|a' rest' IH]; intros s Hs; [exact Hs|].
    cbn [interact]. destruct (handle a' s) as [s1 out1] eqn:E1.
    specialize (IH s1). destruct (interact rest' s1) as [s2 out2]. cbn [fst] in *.
    apply IH. destruct a' as [[]| | | | |]; cbn in E1; inversion E1; subst; auto. }
  split; [apply Hsel; by left|].
  destruct a; cbn; repeat split; discriminate.
Qed.

End Prompt.

(** ** Cancelling *)

(** C9.  [cancelGoogleLogin] sets [pendingGoogleAuth] to [null] and that is
    the only command it issues: no request, no navigation; the user, both
    stored tokens (the whole storage), the loading flag and the suspended
    invocations are left as they were. *)
Theorem cancel_only_clears_pending (pg : Page) :
  world (step (Invoke HCancelGoogleLogin) pg) = apply (setPendingGoogleAuth None) (world pg) /\
  pendingGoogleAuth (world (step (Invoke HCancelGoogleLogin) pg)) = None /\
  since (world pg) (world (step (Invoke HCancelGoogleLogin) pg))
    = [Did (setPendingGoogleAuth None)] /\
  user (world (step (Invoke HCancelGoogleLogin) pg)) = user (world pg) /\
  localStorage (world (step (Invoke HCancelGoogleLogin) pg)) = localStorage (world pg) /\
  loading (world (step (Invoke HCancelGoogleLogin) pg)) = loading (world pg) /\
  tasks (step (Invoke HCancelGoogleLogin) pg) = tasks pg.
Proof.
  cbn. erewrite since_app by apply trace_apply. fields. by repeat split.
Qed.

(** ** Logout *)

Lemma run_logout (env : Env) n w :
  run AuthContext.logout env n w =
    (perform [removeItem "accessToken"; removeItem "refreshToken"; setUser JNull;
              navigate "/login" false;
              toast info (JString "Logged out successfully")]
       (log (Called signOut) (log (Called (api_post "/auth/logout" JUndefined)) w)),
     Fulfilled tt).
Proof.
  unfold AuthContext.logout, Firebase.firebaseSignOut. cbn.
  destruct (env n (api_post "/auth/logout" JUndefined)); cbn;
    destruct (env (S n) signOut); reflexivity.
Qed.

(** C10.  Whatever the backend logout request and the Firebase sign-out do
    (fulfil or reject), [logout] returns normally with both tokens removed and
    the user [null], having issued the same commands: the two calls, the two
    removals, [setUser(null)], the navigation to ["/login"] and the toast. *)
Theorem logout_always_signs_out (env : Env) n w :
  snd (run AuthContext.logout env n w) = Fulfilled tt /\
  localStorage (fst (run AuthContext.logout env n w)) !! "accessToken" = None /\
  localStorage (fst (run AuthContext.logout env n w)) !! "refreshToken" = None /\
  user (fst (run AuthContext.logout env n w)) = JNull /\
  since w (fst (run AuthContext.logout env n w)) =
    [ Called (api_post "/auth/logout" JUndefined); Called signOut;
      Did (removeItem "accessToken"); Did (removeItem "refreshToken");
      Did (setUser JNull); Did (navigate "/login" false);
      Did (toast info (JString "Logged out successfully")) ].
Proof.
  rewrite run_logout. cbn [fst snd].
  erewrite since_app
    by (rewrite trace_perform, !trace_log, <- !app_assoc; reflexivity).
  fields. repeat split; by simplify_map_eq.
Qed.

(** ** P4: the stored tokens as a pair *)

Lemma safe_turn (p : Proc unit) w :
  safe p w ->
  paired (localStorage (fst (turn p w))) /\
  Forall task_safe (park (snd (turn p w)) []).
Proof.
  revert w. induction p as [a|e|e k IH|key k IH|k IH|c k IH]; intros w Hs; cbn in *; auto.
  destruct Hs as [Hp Hk]. split; [exact Hp|].
  constructor; [|constructor]. intros r w' Hw'. cbn. by apply Hk.
Qed.

Ltac storage :=
  repeat (rewrite ?storage_apply, ?storage_log; cbv beta iota);
  eauto using paired_both, paired_neither.

Ltac safety :=
  cbn;
  repeat (match goal with
          | |- _ /\ _ => split
          | |- forall _, _ => intro
          | |- context [match ?x with _ => _ end] => destruct x eqn:?
          end; cbn);
  storage.

Lemma body_safe h w : paired (localStorage w) -> safe (body h w) w.
Proof.
  intros Hw.
  destruct h; cbn [body];
    unfold AuthContext.initAuth, AuthContext.checkAuth, AuthContext.loginWithGoogle,
      AuthContext.completeGoogleLogin, AuthContext.handleGoogleLogin,
      AuthContext.cancelGoogleLogin, AuthContext.loginWithEmail,
      AuthContext.registerWithEmail, AuthContext.logout, AuthContext.updateUser,
      AuthContext.refreshUserData, AuthContext.getItem,
      Firebase.checkRedirectResult, Firebase.signInWithGoogle, Firebase.firebaseSignOut,
      Firebase.isMobileDevice, member;
    safety.
Qed.

Lemma park_app st ts : park st ts = ts ++ park st [].
Proof. destruct st; cbn; by rewrite ?app_nil_r. Qed.

Lemma step_consistent s pg : consistent pg -> consistent (step s pg).
Proof.
  intros [Hw Hts]. destruct s as [h|i r|]; cbn [step].
  - destruct (turn _ _) as [w' st] eqn:E.
    destruct (safe_turn (body h (world pg)) (world pg) (body_safe h _ Hw)) as [H1 H2].
    rewrite E in H1, H2. cbn [fst snd] in *.
    split; cbn [world tasks]; [exact H1|]. rewrite park_app. by apply Forall_app.
  - destruct (tasks pg !! i) as [t|] eqn:Et; [|by split].
    destruct (turn _ _) as [w' st] eqn:E.
    assert (Ht : task_safe t) by (eapply Forall_lookup_1; eauto).
    destruct (safe_turn (rest t (r (awaited t))) (world pg) (Ht _ _ Hw)) as [H1 H2].
    rewrite E in H1, H2. cbn [fst snd] in *.
    split; cbn [world tasks]; [exact H1|]. rewrite park_app.
    apply Forall_app. split; [by apply Forall_delete|exact H2].
  - split; cbn; [exact Hw|constructor].
Qed.

Lemma steps_consistent ss pg : consistent pg -> consistent (steps ss pg).
Proof.
  revert pg. induction ss as [|s ss IH]; intros pg H; [exact H|].
  cbn. apply IH. by apply step_consistent.
Qed.


(** *** When a write throws *)

Lemma turn_in_reliable {A} (t : Thrower) (p : Proc A) w :
  (forall m key value, t m key value = None) -> turn_in t p w = turn p w.
Proof.
  intros Ht. revert w.
  induction p as [a|e|e k IH|key k IH|k IH|c k IH]; intros w; cbn; auto.
  assert (thrown t w e = None) as -> by (destruct e; cbn; auto). apply IH.
Qed.

Lemma steps_in_reliable (t : Thrower) ss pg :
  (forall m key value, t m key value = None) -> steps_in t ss pg = steps ss pg.
Proof.
  intros Ht. revert pg. induction ss as [|s ss IH]; intros pg; [reflexivity|].
  cbn [steps_in steps fold_left]. fold (steps_in t ss) (steps ss).
  assert (step_in t s pg = step s pg) as ->; [|apply IH].
  destruct s as [h|i r|]; cbn [step_in step]; [| |reflexivity].
  - by rewrite turn_in_reliable.
  - destruct (tasks pg !! i); [|reflexivity]. by rewrite turn_in_reliable.
Qed.

Lemma run_in_reliable {A} (t : Thrower) (p : Proc A) (env : Env) n w :
  (forall m key value, t m key value = None) -> run_in t p env n w = run p env n w.
Proof.
  intros Ht. revert n w.
  induction p as [a|e|e k IH|key k IH|k IH|c k IH]; intros n w; cbn; auto.
  assert (thrown t w e = None) as -> by (destruct e; cbn; auto). apply IH.
Qed.

Lemma paired_ordered m : paired m -> ordered m.
Proof. intros [[Ha _]|[_ Hr]] H; [exact Ha|]. rewrite Hr in H. by destruct H. Qed.

Lemma ordered_access (m : gmap string string) a : ordered (<["accessToken" := a]> m).
Proof. intros _. simplify_map_eq. eauto. Qed.

Lemma ordered_both (m : gmap string string) a r :
  ordered (<["refreshToken" := r]> (<["accessToken" := a]> m)).
Proof. intros _. simplify_map_eq. eauto. Qed.

Lemma ordered_neither (m : gmap string string) :
  ordered (delete "refreshToken" (delete "accessToken" m)).
Proof. intros H. simplify_map_eq. by destruct H. Qed.

Lemma orders_turn (t : Thrower) (p : Proc unit) w :
  orders p w ->
  ordered (localStorage (fst (turn_in t p w))) /\
  Forall task_orders (park (snd (turn_in t p w)) []).
Proof.
  revert w. induction p as [a|e|e k IH|key k IH|k IH|c k IH]; intros w Hs; cbn in *; auto.
  - destruct Hs as [Hok Hthrown]. destruct (thrown t w e) as [err|] eqn:E; [|by apply IH].
    apply IH. destruct e; try discriminate E. apply Hthrown.
  - destruct Hs as [Hp Hk]. split; [exact Hp|].
    constructor; [|constructor]. intros r w' Hw'. cbn. by apply Hk.
Qed.

Ltac ordering :=
  cbn;
  repeat (match goal with
          | |- _ /\ _ => split
          | |- forall _, _ => intro
          | |- context [match ?x with _ => _ end] => destruct x eqn:?
          end; cbn);
  repeat (rewrite ?storage_apply, ?storage_log; cbv beta iota);
  eauto using ordered_access, ordered_both, ordered_neither.

Lemma body_orders h w : ordered (localStorage w) -> orders (body h w) w.
Proof.
  intros Hw.
  destruct h; cbn [body];
    unfold AuthContext.initAuth, AuthContext.checkAuth, AuthContext.loginWithGoogle,
      AuthContext.completeGoogleLogin, AuthContext.handleGoogleLogin,
      AuthContext.cancelGoogleLogin, AuthContext.loginWithEmail,
      AuthContext.registerWithEmail, AuthContext.logout, AuthContext.updateUser,
      AuthContext.refreshUserData, AuthContext.getItem,
      Firebase.checkRedirectResult, Firebase.signInWithGoogle, Firebase.firebaseSignOut,
      Firebase.isMobileDevice, member;
    ordering.
Qed.

Lemma steps_in_ordered (t : Thrower) ss pg :
  ordered (localStorage (world pg)) -> Forall task_orders (tasks pg) ->
  ordered (localStorage (world (steps_in t ss pg))).
Proof.
  revert pg. induction ss as [|s ss IH]; intros pg Hw Hts; [exact Hw|].
  cbn [steps_in fold_left]. fold (steps_in t ss (step_in t s pg)).
  assert (Hstep : ordered (localStorage (world (step_in t s pg))) /\
                  Forall task_orders (tasks (step_in t s pg))).
  { destruct s as [h|i r|]; cbn [step_in].
    - destruct (orders_turn t (body h (world pg)) (world pg) (body_orders h _ Hw)) as [H1 H2].
      destruct (turn_in _ _ _) as [w' st]. cbn [fst snd world tasks] in *.
      split; [exact H1|]. rewrite park_app. by apply Forall_app.
    - destruct (tasks pg !! i) as [task|] eqn:Et; [|by split].
      assert (Ht : task_orders task) by (eapply Forall_lookup_1; eauto).
      destruct (orders_turn t (rest task (r (awaited task))) (world pg) (Ht _ _ Hw))
        as [H1 H2].
      destruct (turn_in _ _ _) as [w' st]. cbn [fst snd world tasks] in *.
      split; [exact H1|]. rewrite park_app.
      apply Forall_app. split; [by apply Forall_delete|exact H2].
    - split; [exact Hw|constructor]. }
  destruct Hstep as [H1 H2]. by apply IH.
Qed.

(** What [handleGoogleLogin] leaves in the storage when its writes can throw. *)
Lemma exchange_storage_in (t : Thrower) idToken role (env : Env) n w :
  match exchanged (env n (exchange idToken role)) with
  | Some (a, rt, u) =>
      match t (localStorage w) "accessToken" a with
      | Some err =>
          snd (run_in t (AuthContext.handleGoogleLogin idToken role) env n w) = Rejected err /\
          localStorage (fst (run_in t (AuthContext.handleGoogleLogin idToken role) env n w))
            = localStorage w
      | None =>
          match t (<["accessToken" := toString a]> (localStorage w)) "refreshToken" rt with
          | Some err =>
              snd (run_in t (AuthContext.handleGoogleLogin idToken role) env n w)
                = Rejected err /\
              localStorage (fst (run_in t (AuthContext.handleGoogleLogin idToken role) env n w))
                = <["accessToken" := toString a]> (localStorage w)
          | None =>
              snd (run_in t (AuthContext.handleGoogleLogin idToken role) env n w)
                = Fulfilled tt /\
              localStorage (fst (run_in t (AuthContext.handleGoogleLogin idToken role) env n w))
                = <["refreshToken" := toString rt]>
                    (<["accessToken" := toString a]> (localStorage w))
          end
      end
  | None =>
      localStorage (fst (run_in t (AuthContext.handleGoogleLogin idToken role) env n w))
        = localStorage w
  end.
Proof.
  unfold AuthContext.handleGoogleLogin, exchanged, exchange, member. cbn.
  destruct (env n _) as [response_data|e]; cbn; [|by fields].
  destruct (nullish response_data); cbn; [by fields|].
  destruct (nullish (get response_data "data")); cbn; [by fields|].
  destruct (nullish (get (get response_data "data") "user")); cbn; [by fields|].
  rewrite storage_log.
  destruct (t (localStorage w) "accessToken" _) as [err|]; cbn; [by fields|].
  rewrite storage_apply, storage_log. cbv beta iota.
  destruct (t _ "refreshToken" _) as [err|]; cbn; by fields.
Qed.

Lemma run_in_logout (t : Thrower) (env : Env) n w :
  localStorage (fst (run_in t AuthContext.logout env n w)) !! "accessToken" = None /\
  localStorage (fst (run_in t AuthContext.logout env n w)) !! "refreshToken" = None.
Proof.
  unfold AuthContext.logout, Firebase.firebaseSignOut. cbn.
  destruct (env n (api_post "/auth/logout" JUndefined)); cbn;
    destruct (env (S n) signOut); cbn; fields; by simplify_map_eq.
Qed.

(** C6, counterexample.  The storage has room for the access token but not
    for the refresh token as well.  The backend exchange succeeds; the first
    [setItem] writes [accessToken], the second throws, [handleGoogleLogin]
    rejects, and the storage is left with [accessToken] alone.  The same
    happens when the returned [refresh_token] is a value that [String()]
    cannot convert.  On the page the lone token outlives a reload:
    [checkAuth] finds no refresh token and returns without removing it. *)
Lemma failed_write_leaves_lone_access_token :
  (snd (run_in (browser (Sample.quota 20))
          (AuthContext.handleGoogleLogin (JString "tok123") (JString "acharya"))
          (fun _ => Sample.online Sample.newUser) 0 (Sample.login_page (Some Sample.tok123)))
     = Rejected QuotaExceededError /\
   localStorage
     (fst (run_in (browser (Sample.quota 20))
             (AuthContext.handleGoogleLogin (JString "tok123") (JString "acharya"))
             (fun _ => Sample.online Sample.newUser) 0
             (Sample.login_page (Some Sample.tok123))))
     = <["accessToken" := "A1"]> ∅) /\
  (snd (run_in (browser (fun _ _ _ => true))
          (AuthContext.handleGoogleLogin (JString "tok123") (JString "acharya"))
          (fun _ => Sample.odd) 0 (Sample.login_page (Some Sample.tok123)))
     = Rejected ConversionError /\
   localStorage
     (fst (run_in (browser (fun _ _ _ => true))
             (AuthContext.handleGoogleLogin (JString "tok123") (JString "acharya"))
             (fun _ => Sample.odd) 0
             (Sample.login_page (Some Sample.tok123))))
     = <["accessToken" := "A1"]> ∅) /\
  localStorage (world (steps_in (browser (Sample.quota 20))
    [ Invoke (HLoginWithGoogle JNull);
      Settle 0 (Sample.online Sample.newUser);
      Settle 0 (Sample.online Sample.newUser);
      Invoke (HCompleteGoogleLogin (JString "acharya"));
      Settle 0 (Sample.online Sample.newUser);
      Reload;
      Invoke HInitAuth;
      Settle 0 (Sample.online Sample.newUser) ]
    (load ∅ Sample.desktop)))
    = <["accessToken" := "A1"]> ∅ /\
  ~ paired (<["accessToken" := "A1"]> ∅).
Proof.
  split; [split; reflexivity|]. split; [split; reflexivity|]. split; [reflexivity|].
  intros [[_ [r Hr]]|[Ha _]]; simplify_map_eq.
Qed.

(** C6, amended.  Whether or not [localStorage] writes throw, over every
    interleaving of the provider's functions and across reloads a refresh
    token is never stored without an access token, and after [logout] both
    are absent.  As long as no write throws, the store holds both tokens or
    neither at every turn.  After a successful exchange: if both writes go
    through, both tokens are stored (as strings); if the first throws, the
    storage is unchanged; if the second throws, the access token written by
    the first stays, so the store can be left with [accessToken] alone. *)
Theorem tokens_paired_unless_write_throws (t : Thrower) storage ua (ss : list Step)
    idToken role (env : Env) n w :
  ordered storage ->
  ordered (localStorage (world (steps_in t ss (load storage ua)))) /\
  ((forall m key value, t m key value = None) -> paired storage ->
   paired (localStorage (world (steps_in t ss (load storage ua))))) /\
  match exchanged (env n (exchange idToken role)) with
  | Some (a, rt, u) =>
      match t (localStorage w) "accessToken" a with
      | Some err =>
          snd (run_in t (AuthContext.handleGoogleLogin idToken role) env n w) = Rejected err /\
          localStorage (fst (run_in t (AuthContext.handleGoogleLogin idToken role) env n w))
            = localStorage w
      | None =>
          match t (<["accessToken" := toString a]> (localStorage w)) "refreshToken" rt with
          | Some err =>
              snd (run_in t (AuthContext.handleGoogleLogin idToken role) env n w)
                = Rejected err /\
              localStorage (fst (run_in t (AuthContext.handleGoogleLogin idToken role) env n w))
                = <["accessToken" := toString a]> (localStorage w)
          | None =>
              snd (run_in t (AuthContext.handleGoogleLogin idToken role) env n w)
                = Fulfilled tt /\
              localStorage (fst (run_in t (AuthContext.handleGoogleLogin idToken role) env n w))
                = <["refreshToken" := toString rt]>
                    (<["accessToken" := toString a]> (localStorage w))
          end
      end
  | None =>
      localStorage (fst (run_in t (AuthContext.handleGoogleLogin idToken role) env n w))
        = localStorage w
  end /\
  (localStorage (fst (run_in t AuthContext.logout env n w)) !! "accessToken" = None /\
   localStorage (fst (run_in t AuthContext.logout env n w)) !! "refreshToken" = None).
Proof.
  intros Hord. split; [|split; [|split]].
  - apply steps_in_ordered; [exact Hord|constructor].
  - intros Ht Hp. rewrite (steps_in_reliable t ss _ Ht).
    apply (steps_consistent ss (load storage ua)). split; [exact Hp|constructor].
  - apply exchange_storage_in.
  - apply run_in_logout.
Qed.

Lemma tokens_paired_unless_write_throws_witness :
  ordered (∅ : gmap string string) /\
  paired (localStorage (world (steps_in reliable
    [ Invoke (HLoginWithGoogle JNull);
      Settle 0 (Sample.online Sample.newUser);
      Settle 0 (Sample.online Sample.newUser);
      Invoke (HCompleteGoogleLogin (JString "acharya"));
      Invoke HLogout;
      Settle 0 (Sample.online Sample.newUser);
      Reload ]
    (load ∅ Sample.desktop)))) /\
  (snd (run_in reliable (AuthContext.handleGoogleLogin (JString "tok123") (JString "acharya"))
          (fun _ => Sample.online Sample.newUser) 0 (Sample.login_page (Some Sample.tok123)))
     = Fulfilled tt /\
   localStorage
     (fst (run_in reliable (AuthContext.handleGoogleLogin (JString "tok123") (JString "acharya"))
             (fun _ => Sample.online Sample.newUser) 0
             (Sample.login_page (Some Sample.tok123))))
     = <["refreshToken" := "R1"]> (<["accessToken" := "A1"]> ∅)) /\
  (localStorage (fst (run_in reliable AuthContext.logout (fun _ => Sample.online Sample.newUser) 0
                        (Sample.login_page (Some Sample.tok123)))) !! "accessToken" = None /\
   localStorage (fst (run_in reliable AuthContext.logout (fun _ => Sample.online Sample.newUser) 0
                        (Sample.login_page (Some Sample.tok123)))) !! "refreshToken" = None).
Proof.
  assert (H0 : ordered (∅ : gmap string string))
    by (apply paired_ordered; right; split; reflexivity).
  destruct (tokens_paired_unless_write_throws reliable ∅ Sample.desktop
              [ Invoke (HLoginWithGoogle JNull);
                Settle 0 (Sample.online Sample.newUser);
                Settle 0 (Sample.online Sample.newUser);
                Invoke (HCompleteGoogleLogin (JString "acharya"));
                Invoke HLogout;
                Settle 0 (Sample.online Sample.newUser);
                Reload ]
              (JString "tok123") (JString "acharya")
              (fun _ => Sample.online Sample.newUser) 0
              (Sample.login_page (Some Sample.tok123)) H0) as (_ & Hp & Hx & Hl).
  split; [exact H0|]. split; [|split; [exact Hx|exact Hl]].
  apply Hp; [reflexivity|right; split; reflexivity].
Defined.

(** ** P5: a second sign-in while one is in flight *)

Lemma loginWithGoogle_no_backend_call cred (env : Env) n w :
  filter is_backend_call (since w (fst (run (AuthContext.loginWithGoogle cred) env n w))) = [].
Proof.
  unfold AuthContext.loginWithGoogle, Firebase.signInWithGoogle, Firebase.isMobileDevice.
  branches; cbn [fst]; unfold since; autorewrite with world; rewrite <- ?app_assoc;
    rewrite drop_app_length; reflexivity.
Qed.

Lemma settle_last pg ts t (r : forall c : Ext, Settled (reply c)) w' st :
  tasks pg = ts ++ [t] ->
  turn (rest t (r (awaited t))) (world pg) = (w', st) ->
  step (Settle (length ts) r) pg = mkPage w' (park st ts).
Proof.
  intros Hts Hturn. unfold step. rewrite Hts, list_lookup_middle by reflexivity.
  by rewrite Hturn, delete_middle, app_nil_r.
Qed.

(** C5, counterexample.  On a desktop page, [loginWithGoogle()] is invoked and
    is awaiting the provider popup; a second invocation (with a credential
    from the legacy button) is not rejected or ignored but writes
    [pendingGoogleAuth]; when the first popup then completes, a second
    [pendingGoogleAuth] is written.  A second invocation while an exchange is
    being awaited writes the holder as well. *)
Lemma second_login_in_flight_writes_pending :
  map awaited (tasks (steps [Invoke (HLoginWithGoogle JNull)] (load ∅ Sample.desktop)))
    = [signInWithPopup] /\
  pendingGoogleAuth (world (steps
      [Invoke (HLoginWithGoogle JNull); Invoke (HLoginWithGoogle (JString "legacy"))]
      (load ∅ Sample.desktop)))
    = Some (mkPendingAuth (JString "legacy") JNull) /\
  filter writes_pending (trace (world (steps
      [Invoke (HLoginWithGoogle JNull); Invoke (HLoginWithGoogle (JString "legacy"));
       Settle 0 (Sample.online Sample.newUser); Settle 0 (Sample.online Sample.newUser)]
      (load ∅ Sample.desktop))))
    = [Did (setPendingGoogleAuth (Some (mkPendingAuth (JString "legacy") JNull)));
       Did (setPendingGoogleAuth (Some Sample.tok123))] /\
  map awaited (tasks (steps
      [Invoke (HCompleteGoogleLogin (JString "acharya"));
       Invoke (HLoginWithGoogle (JString "legacy"))]
      (mkPage (Sample.login_page (Some Sample.tok123)) [])))
    = [exchange (JString "tok123") (JString "acharya")] /\
  pendingGoogleAuth (world (steps
      [Invoke (HCompleteGoogleLogin (JString "acharya"));
       Invoke (HLoginWithGoogle (JString "legacy"))]
      (mkPage (Sample.login_page (Some Sample.tok123)) [])))
    = Some (mkPendingAuth (JString "legacy") JNull).
Proof. repeat split; reflexivity. Qed.

(** C5, amended.  [loginWithGoogle] has no in-flight guard and never calls the
    backend.  Whatever is in flight on the page and whatever the holder
    holds: an invocation with a legacy credential writes that credential into
    [pendingGoogleAuth] at once and leaves the suspended invocations as they
    are; an invocation without one starts its own provider sign-in next to
    them (redirect on a mobile user agent, popup otherwise), and when its
    popup and token requests are fulfilled it writes its credential into the
    holder, replacing what was there (last write wins).  No run of
    [loginWithGoogle] issues a backend request. *)
Theorem login_has_no_in_flight_guard (pg : Page) cred uc tok (env : Env) n w :
  filter is_backend_call (since w (fst (run (AuthContext.loginWithGoogle cred) env n w))) = [] /\
  if truthy cred then
    step (Invoke (HLoginWithGoogle cred)) pg =
      mkPage (apply (setPendingGoogleAuth (Some (mkPendingAuth cred JNull))) (world pg))
             (tasks pg)
  else if Firebase.mobileUserAgent (userAgent (world pg)) then
    world (step (Invoke (HLoginWithGoogle cred)) pg)
      = log (Called signInWithRedirect) (world pg) /\
    map awaited (tasks (step (Invoke (HLoginWithGoogle cred)) pg))
      = map awaited (tasks pg) ++ [signInWithRedirect]
  else
    world (step (Invoke (HLoginWithGoogle cred)) pg)
      = log (Called signInWithPopup) (world pg) /\
    map awaited (tasks (step (Invoke (HLoginWithGoogle cred)) pg))
      = map awaited (tasks pg) ++ [signInWithPopup] /\
    pendingGoogleAuth (world (steps
        [Invoke (HLoginWithGoogle cred);
         Settle (length (tasks pg)) (grants uc tok);
         Settle (length (tasks pg)) (grants uc tok)] pg))
      = Some (mkPendingAuth (JString tok) (email (credential_user uc))) /\
    tasks (steps
        [Invoke (HLoginWithGoogle cred);
         Settle (length (tasks pg)) (grants uc tok);
         Settle (length (tasks pg)) (grants uc tok)] pg)
      = tasks pg.
Proof.
  split; [apply loginWithGoogle_no_backend_call|].
  destruct (truthy cred) eqn:Hcred.
  - unfold step, body, AuthContext.loginWithGoogle. rewrite Hcred. reflexivity.
  - destruct (Firebase.mobileUserAgent _) eqn:Hua.
    + unfold step, body, AuthContext.loginWithGoogle, Firebase.signInWithGoogle,
        Firebase.isMobileDevice.
      rewrite Hcred. cbn. rewrite Hua. cbn. by rewrite map_app.
    + assert (E1 : exists k,
                step (Invoke (HLoginWithGoogle cred)) pg =
                  mkPage (log (Called signInWithPopup) (world pg))
                         (tasks pg ++ [mkTask signInWithPopup k]) /\
                forall w1, exists k',
                  turn (k (Fulfilled uc)) w1 =
                    (log (Called (getIdToken true)) w1, Suspended (getIdToken true) k') /\
                  forall w2,
                    turn (k' (Fulfilled tok)) w2 =
                      (apply (setPendingGoogleAuth
                                (Some (mkPendingAuth (JString tok)
                                         (email (credential_user uc))))) w2,
                       Finished (Fulfilled tt))).
      { unfold step, body, AuthContext.loginWithGoogle, Firebase.signInWithGoogle,
          Firebase.isMobileDevice.
        rewrite Hcred. cbn. rewrite Hua. cbn.
        eexists. split; [reflexivity|].
        intros w1. cbn. eexists. split; [reflexivity|]. intros w2. reflexivity. }
      destruct E1 as (k & E1 & Hk).
      cbn [steps fold_left]. rewrite E1. cbn [world tasks].
      split; [reflexivity|]. split; [by rewrite map_app|].
      destruct (Hk (log (Called signInWithPopup) (world pg))) as (k' & Ek & Hk').
      rewrite (settle_last (mkPage _ (tasks pg ++ [mkTask signInWithPopup k]))
                 (tasks pg) (mkTask signInWithPopup k) (grants uc tok) _ _ eq_refl Ek).
      cbn [park].
      rewrite (settle_last (mkPage _ (tasks pg ++ [mkTask (getIdToken true) k']))
                 (tasks pg) (mkTask (getIdToken true) k') (grants uc tok) _ _
                 eq_refl (Hk' _)).
      cbn [park world tasks]. split; [by rewrite pending_apply|reflexivity].
Qed.

(** * Further properties of the code *)

(** ** [isMobileDevice]: the user-agent test *)

Lemma append_cons c (a b : string) : (String c a +:+ b) = String c (a +:+ b).
Proof. reflexivity. Qed.

Lemma append_nil (b : string) : ("" +:+ b) = b.
Proof. reflexivity. Qed.

Lemma lowercase_app (a b : string) :
  lowercase (a +:+ b) = (lowercase a +:+ lowercase b).
Proof.
  induction a as [|c a IH]; cbn [lowercase]; rewrite ?append_nil, ?append_cons;
    cbn [lowercase]; [reflexivity|by rewrite IH].
Qed.

Lemma lowercase_split s (a b : string) :
  lowercase s = (a +:+ b) ->
  exists s1 s2, s = (s1 +:+ s2) /\ lowercase s1 = a /\ lowercase s2 = b.
Proof.
  revert s. induction a as [|c a IH]; intros s H.
  - exists ""%string, s. by repeat split.
  - destruct s as [|d s]; [discriminate|].
    rewrite append_cons in H. cbn [lowercase] in H. injection H as Hc Hs.
    destruct (IH s Hs) as (s1 & s2 & -> & H1 & H2).
    exists (String d s1), s2. rewrite append_cons. cbn [lowercase]. by rewrite Hc, H1.
Qed.

Lemma prefix_app (p s : string) : String.prefix p (p +:+ s) = true.
Proof.
  induction p as [|c p IH]; rewrite ?append_nil, ?append_cons; cbn [String.prefix];
    [by destruct s|].
  destruct (ascii_dec c c); [exact IH|congruence].
Qed.

Lemma prefix_inv (p s : string) :
  String.prefix p s = true -> exists b, s = (p +:+ b).
Proof.
  revert s. induction p as [|c p IH]; intros s H; [by exists s|].
  destruct s as [|d s]; [discriminate|]. cbn [String.prefix] in H.
  destruct (ascii_dec c d) as [->|]; [|discriminate].
  destruct (IH s H) as [b ->]. by exists b.
Qed.

Lemma includes_app (pat a b : string) : includes pat (a +:+ pat +:+ b) = true.
Proof.
  induction a as [|c a IH]; rewrite ?append_nil, ?append_cons.
  - destruct (pat +:+ b) eqn:E; cbn [includes]; rewrite <- E, prefix_app; reflexivity.
  - cbn [includes]. rewrite IH. apply orb_true_r.
Qed.

Lemma includes_inv (pat s : string) :
  includes pat s = true -> exists a b, s = (a +:+ pat +:+ b).
Proof.
  induction s as [|c s IH]; cbn [includes]; intros H.
  - rewrite orb_false_r in H. destruct (prefix_inv _ _ H) as [b Hb]. by exists ""%string, b.
  - apply orb_true_iff in H as [H|H].
    + destruct (prefix_inv _ _ H) as [b Hb]. by exists ""%string, b.
    + destruct (IH H) as (a & b & ->). by exists (String c a), b.
Qed.

(** X1.  A user agent is classed as mobile exactly when it contains, somewhere,
    one of the eight tokens of the pattern written in any letter case. *)
Theorem mobile_iff_contains_token ua :
  Firebase.mobileUserAgent ua = true <->
  exists tok pre mid suf,
    In tok mobileTokens /\ ua = (pre +:+ mid +:+ suf) /\
    lowercase mid = lowercase tok.
Proof.
  unfold Firebase.mobileUserAgent, test_any_ci. rewrite existsb_exists. split.
  - intros (tok & Hin & Hinc).
    destruct (includes_inv _ _ Hinc) as (a & b & Hab).
    destruct (lowercase_split _ _ _ Hab) as (pre & s2 & -> & _ & H2).
    destruct (lowercase_split _ _ _ H2) as (mid & suf & -> & Hmid & _).
    by exists tok, pre, mid, suf.
  - intros (tok & pre & mid & suf & Hin & -> & Hmid).
    exists tok. split; [exact Hin|].
    rewrite !lowercase_app, Hmid. apply includes_app.
Qed.

(** ** [signInWithGoogle], [checkRedirectResult] *)

(** Evaluate the events logged since the start of a run. *)
Ltac events :=
  unfold since, perform, sign_in; cbn [fst snd fold_left app]; autorewrite with world;
  rewrite <- ?app_assoc;
  rewrite ?drop_app_length, ?drop_all; cbn [app].

Ltac frame := unfold same_state; cbn [fst snd]; autorewrite with world; cbv beta iota.

(** X2.  [signInWithGoogle] chooses its strategy by the user agent alone: on a
    mobile one it only starts the redirect and can resolve with nothing but
    [null]; otherwise it only uses the popup and a forced token refresh, never
    the redirect, and what it resolves with is the popup's user together with
    the token [getIdToken(true)] gave.  It changes no state of the page. *)
Theorem signInWithGoogle_strategy (env : Env) n w :
  same_state w (fst (run Firebase.signInWithGoogle env n w)) /\
  if Firebase.mobileUserAgent (userAgent w)
  then
    called (since w (fst (run Firebase.signInWithGoogle env n w))) = [signInWithRedirect] /\
    forall r, snd (run Firebase.signInWithGoogle env n w) = Fulfilled r -> r = None
  else
    (called (since w (fst (run Firebase.signInWithGoogle env n w))) = [signInWithPopup] \/
     called (since w (fst (run Firebase.signInWithGoogle env n w)))
       = [signInWithPopup; getIdToken true]) /\
    forall r, snd (run Firebase.signInWithGoogle env n w) = Fulfilled r ->
      exists uc tok,
        env n signInWithPopup = Fulfilled uc /\
        env (S n) (getIdToken true) = Fulfilled tok /\
        r = Some (mkSignInResult (credential_user uc) tok).
Proof.
  unfold Firebase.signInWithGoogle, Firebase.isMobileDevice. cbn.
  destruct (Firebase.mobileUserAgent (userAgent w)); cbn.
  - destruct (env n signInWithRedirect); cbn; (split; [by frame|]);
      (split; [by events|]); intros r Hr; by inversion Hr.
  - destruct (env n signInWithPopup) as [uc|e] eqn:E1; cbn.
    + destruct (env (S n) (getIdToken true)) as [tok|e] eqn:E2; cbn;
        (split; [by frame|]); (split; [right; by events|]); intros r Hr; inversion Hr.
      exists uc, tok. by destruct uc as [[]].
    + split; [by frame|]. split; [left; by events|]. intros r Hr. inversion Hr.
Qed.

(** X3.  Whenever [signInWithGoogle] rejects, the error it throws is the
    enhanced form of the error one of its SDK calls was rejected with: the
    [code] is that error's code and the [message] is a string. *)
Theorem signInWithGoogle_rethrows_enhanced (env : Env) n w e' :
  snd (run Firebase.signInWithGoogle env n w) = Rejected e' ->
  exists e,
    (env n signInWithRedirect = Rejected e \/ env n signInWithPopup = Rejected e \/
     env (S n) (getIdToken true) = Rejected e) /\
    e' = Firebase.enhancedError e /\
    code e' = code e /\
    exists text, message e' = JString text.
Proof.
  unfold Firebase.signInWithGoogle, Firebase.isMobileDevice. cbn.
  destruct (Firebase.mobileUserAgent (userAgent w)); cbn.
  - destruct (env n signInWithRedirect) as [|e] eqn:E; cbn; intros H; inversion H.
    exists e. repeat split; eauto.
  - destruct (env n signInWithPopup) as [uc|e] eqn:E1; cbn.
    + destruct (env (S n) (getIdToken true)) as [tok|e] eqn:E2; cbn; intros H; inversion H.
      exists e. repeat split; eauto.
    + intros H; inversion H. exists e. repeat split; eauto.
Qed.

Lemma signInWithGoogle_rethrows_enhanced_witness :
  exists e,
    (Sample.offline 0 signInWithRedirect = Rejected e \/
     Sample.offline 0 signInWithPopup = Rejected e \/
     Sample.offline 1 (getIdToken true) = Rejected e) /\
    Firebase.enhancedError Sample.networkError = Firebase.enhancedError e /\
    code (Firebase.enhancedError Sample.networkError) = code e /\
    exists text, message (Firebase.enhancedError Sample.networkError) = JString text.
Proof.
  exact (signInWithGoogle_rethrows_enhanced Sample.offline 0 (Sample.login_page None)
           (Firebase.enhancedError Sample.networkError) eq_refl).
Defined.

(** X4.  The six error codes [signInWithGoogle] knows get six different
    messages: two errors with known codes and the same message have the same
    code. *)
Theorem known_codes_have_distinct_messages e1 e2 c1 c2 :
  In c1 knownCodes -> In c2 knownCodes ->
  code e1 = JString c1 -> code e2 = JString c2 ->
  Firebase.errorMessage e1 = Firebase.errorMessage e2 -> c1 = c2.
Proof.
  intros H1 H2 E1 E2. unfold Firebase.errorMessage. rewrite E1, E2.
  unfold knownCodes in *. cbn [In] in *.
  repeat (destruct H1 as [<-|H1]; [|]); try contradiction;
    repeat (destruct H2 as [<-|H2]; [|]); try contradiction;
    cbn; intros H; first [reflexivity | discriminate H].
Qed.

Lemma known_codes_have_distinct_messages_witness :
  "auth/popup-blocked" = "auth/popup-blocked".
Proof.
  exact (known_codes_have_distinct_messages
           (mkError JNull (JString "auth/popup-blocked") JUndefined)
           (mkError (JString "x") (JString "auth/popup-blocked") JNull)
           "auth/popup-blocked" "auth/popup-blocked"
           (or_intror (or_introl eq_refl)) (or_intror (or_introl eq_refl))
           eq_refl eq_refl eq_refl).
Defined.

(** X5.  [checkRedirectResult] never rejects and changes no state of the
    page: it resolves with a result only when [getRedirectResult] gave a user
    and [getIdToken()] gave a token, and with [null] in every other case,
    errors included. *)
Theorem checkRedirectResult_never_rejects (env : Env) n w :
  same_state w (fst (run Firebase.checkRedirectResult env n w)) /\
  snd (run Firebase.checkRedirectResult env n w) =
    Fulfilled
      match env n getRedirectResult with
      | Fulfilled (Some uc) =>
          match env (S n) (getIdToken false) with
          | Fulfilled tok => Some (mkSignInResult (credential_user uc) tok)
          | Rejected _ => None
          end
      | Fulfilled None | Rejected _ => None
      end.
Proof.
  unfold Firebase.checkRedirectResult. cbn.
  destruct (env n getRedirectResult) as [[uc|]|e]; cbn.
  - destruct (env (S n) (getIdToken false)) as [tok|e]; cbn; (split; [by frame|]);
      [by destruct uc as [[]]|reflexivity].
  - split; [by frame|reflexivity].
  - split; [by frame|reflexivity].
Qed.

(** ** The mount effect and [checkAuth] *)

Lemma checkAuth_without_tokens (env : Env) n w :
  AuthContext.item_truthy (localStorage w !! "accessToken")
    && AuthContext.item_truthy (localStorage w !! "refreshToken") = false ->
  run AuthContext.checkAuth env n w = (apply (setLoading false) w, Fulfilled tt).
Proof.
  intros H. unfold AuthContext.checkAuth, AuthContext.getItem. cbn.
  destruct (AuthContext.item_truthy (localStorage w !! "accessToken"));
    destruct (AuthContext.item_truthy (localStorage w !! "refreshToken"));
    try discriminate H; reflexivity.
Qed.

(** X6.  When a token is missing from [localStorage] or is the empty string,
    [checkAuth] sends no request and only ends the loading state: the user
    and the storage, a lone token included, are left as they are. *)
Theorem checkAuth_skips_without_tokens (env : Env) n w :
  AuthContext.item_truthy (localStorage w !! "accessToken")
    && AuthContext.item_truthy (localStorage w !! "refreshToken") = false ->
  since w (fst (run AuthContext.checkAuth env n w)) = [Did (setLoading false)] /\
  user (fst (run AuthContext.checkAuth env n w)) = user w /\
  localStorage (fst (run AuthContext.checkAuth env n w)) = localStorage w /\
  loading (fst (run AuthContext.checkAuth env n w)) = false /\
  snd (run AuthContext.checkAuth env n w) = Fulfilled tt.
Proof.
  intros H. rewrite (checkAuth_without_tokens env n w H). split; [by events|].
  cbn [fst snd]. by autorewrite with world.
Qed.

Lemma checkAuth_skips_without_tokens_witness :
  since (fresh (<["accessToken" := "A0"]> ∅) Sample.desktop [])
    (fst (run AuthContext.checkAuth Sample.offline 0
              (fresh (<["accessToken" := "A0"]> ∅) Sample.desktop [])))
    = [Did (setLoading false)] /\
  user (fst (run AuthContext.checkAuth Sample.offline 0
                 (fresh (<["accessToken" := "A0"]> ∅) Sample.desktop []))) = JNull /\
  localStorage (fst (run AuthContext.checkAuth Sample.offline 0
                         (fresh (<["accessToken" := "A0"]> ∅) Sample.desktop [])))
    = <["accessToken" := "A0"]> ∅ /\
  loading (fst (run AuthContext.checkAuth Sample.offline 0
                    (fresh (<["accessToken" := "A0"]> ∅) Sample.desktop []))) = false /\
  snd (run AuthContext.checkAuth Sample.offline 0
           (fresh (<["accessToken" := "A0"]> ∅) Sample.desktop [])) = Fulfilled tt.
Proof.
  exact (checkAuth_skips_without_tokens Sample.offline 0
           (fresh (<["accessToken" := "A0"]> ∅) Sample.desktop []) eq_refl).
Defined.

Lemma item_truthy_Some (m : gmap string string) key :
  AuthContext.item_truthy (m !! key) = true ->
  exists s, m !! key = Some s /\ string_nonempty s = true.
Proof. destruct (m !! key) as [s|]; cbn; [eauto|discriminate]. Qed.

(** What [checkAuth] does in every case. *)
Lemma checkAuth_cases (env : Env) n w :
  run AuthContext.checkAuth env n w =
  if AuthContext.item_truthy (localStorage w !! "accessToken")
       && AuthContext.item_truthy (localStorage w !! "refreshToken")
  then
    match identified (env n (api_get "/auth/me")) with
    | Some userData =>
        (perform [setUser userData; setLoading false]
           (log (Called (api_get "/auth/me")) w), Fulfilled tt)
    | None =>
        (perform [removeItem "accessToken"; removeItem "refreshToken"; setUser JNull;
                  setLoading false] (log (Called (api_get "/auth/me")) w), Fulfilled tt)
    end
  else (apply (setLoading false) w, Fulfilled tt).
Proof.
  destruct (_ && _) eqn:E.
  - apply andb_true_iff in E as [Ea Er].
    destruct (item_truthy_Some _ _ Ea) as (a & Ha & Hna).
    destruct (item_truthy_Some _ _ Er) as (r & Hr & Hnr).
    by rewrite (run_checkAuth env n w a r Ha Hna Hr Hnr).
  - by apply checkAuth_without_tokens.
Qed.

(** X7.  [checkAuth] never rejects and always ends with [loading] false; it
    sends at most the one request [GET /auth/me], never navigates, never
    shows a toast and never touches [pendingGoogleAuth]. *)
Theorem checkAuth_always_settles (env : Env) n w :
  snd (run AuthContext.checkAuth env n w) = Fulfilled tt /\
  loading (fst (run AuthContext.checkAuth env n w)) = false /\
  pendingGoogleAuth (fst (run AuthContext.checkAuth env n w)) = pendingGoogleAuth w /\
  (called (since w (fst (run AuthContext.checkAuth env n w))) = [] \/
   called (since w (fst (run AuthContext.checkAuth env n w))) = [api_get "/auth/me"]) /\
  Forall (fun e => match e with navigate _ _ | toast _ _ => False | _ => True end)
         (performed (since w (fst (run AuthContext.checkAuth env n w)))).
Proof.
  rewrite checkAuth_cases.
  destruct (_ && _); [destruct (identified _)|];
    (split; [reflexivity|]); (split; [by fields|]); (split; [by fields|]);
    (split; [first [left; by events | right; by events]|]);
    events; cbn; repeat constructor.
Qed.

(** X8.  With both tokens stored and an answer to [GET /auth/me] that has a
    body, [checkAuth] sets the user to [response.data.data || response.data]
    and keeps the storage as it is. *)
Theorem checkAuth_restores_user (env : Env) n w response_data :
  AuthContext.item_truthy (localStorage w !! "accessToken") = true ->
  AuthContext.item_truthy (localStorage w !! "refreshToken") = true ->
  env n (api_get "/auth/me") = Fulfilled response_data ->
  nullish response_data = false ->
  user (fst (run AuthContext.checkAuth env n w)) = unwrap response_data /\
  localStorage (fst (run AuthContext.checkAuth env n w)) = localStorage w /\
  since w (fst (run AuthContext.checkAuth env n w)) =
    [Called (api_get "/auth/me"); Did (setUser (unwrap response_data));
     Did (setLoading false)].
Proof.
  intros Ha Hr He Hn. rewrite checkAuth_cases, Ha, Hr, He. cbn [andb identified].
  rewrite Hn. split; [by fields|]. split; [by fields|]. by events.
Qed.

Lemma checkAuth_restores_user_witness :
  user (fst (run AuthContext.checkAuth (fun _ => Sample.online Sample.newUser) 0
                 (fresh Sample.signed_in_storage Sample.desktop [])))
    = unwrap (Sample.envelope Sample.newUser) /\
  localStorage (fst (run AuthContext.checkAuth (fun _ => Sample.online Sample.newUser) 0
                         (fresh Sample.signed_in_storage Sample.desktop [])))
    = Sample.signed_in_storage /\
  since (fresh Sample.signed_in_storage Sample.desktop [])
        (fst (run AuthContext.checkAuth (fun _ => Sample.online Sample.newUser) 0
                  (fresh Sample.signed_in_storage Sample.desktop []))) =
    [Called (api_get "/auth/me"); Did (setUser (unwrap (Sample.envelope Sample.newUser)));
     Did (setLoading false)].
Proof.
  exact (checkAuth_restores_user (fun _ => Sample.online Sample.newUser) 0
           (fresh Sample.signed_in_storage Sample.desktop [])
           (Sample.envelope Sample.newUser) eq_refl eq_refl eq_refl eq_refl).
Defined.

#[local] Arguments AuthContext.checkAuth : simpl never.

(** What the mount effect does in every case. *)
Lemma initAuth_cases (env : Env) n w :
  run AuthContext.initAuth env n w =
  match env n getRedirectResult with
  | Fulfilled (Some uc) =>
      let w2 := log (Called (getIdToken false)) (log (Called getRedirectResult) w) in
      match env (S n) (getIdToken false) with
      | Fulfilled tok =>
          if string_nonempty tok
          then (perform [setPendingGoogleAuth
                           (Some (mkPendingAuth (JString tok) (email (credential_user uc))));
                         setLoading false] w2, Fulfilled tt)
          else run AuthContext.checkAuth env (S (S n)) w2
      | Rejected _ => run AuthContext.checkAuth env (S (S n)) w2
      end
  | Fulfilled None | Rejected _ =>
      run AuthContext.checkAuth env (S n) (log (Called getRedirectResult) w)
  end.
Proof.
  unfold AuthContext.initAuth, Firebase.checkRedirectResult. cbn.
  destruct (env n getRedirectResult) as [[uc|]|e]; cbn; try reflexivity.
  destruct (env (S n) (getIdToken false)) as [tok|e]; cbn; try reflexivity.
  destruct (string_nonempty tok); reflexivity.
Qed.

(** X9.  When the page loads after a provider redirect and the credential is
    recovered, the mount effect puts it into [pendingGoogleAuth] and ends
    loading without logging the user in: it sends no backend request, even
    with tokens stored, and leaves the user and the storage as they are. *)
Theorem initAuth_holds_recovered_credential (env : Env) n w uc tok :
  env n getRedirectResult = Fulfilled (Some uc) ->
  env (S n) (getIdToken false) = Fulfilled tok ->
  tok <> "" ->
  pendingGoogleAuth (fst (run AuthContext.initAuth env n w))
    = Some (mkPendingAuth (JString tok) (email (credential_user uc))) /\
  loading (fst (run AuthContext.initAuth env n w)) = false /\
  user (fst (run AuthContext.initAuth env n w)) = user w /\
  localStorage (fst (run AuthContext.initAuth env n w)) = localStorage w /\
  called (since w (fst (run AuthContext.initAuth env n w)))
    = [getRedirectResult; getIdToken false] /\
  snd (run AuthContext.initAuth env n w) = Fulfilled tt.
Proof.
  intros H1 H2 Hne. rewrite initAuth_cases, H1, H2. cbv zeta.
  destruct tok; [done|]. cbn [string_nonempty].
  split; [by fields|]. split; [by fields|]. split; [by fields|]. split; [by fields|].
  split; [by events|reflexivity].
Qed.

Lemma initAuth_holds_recovered_credential_witness :
  pendingGoogleAuth
    (fst (run AuthContext.initAuth (fun _ => Sample.returning) 0
              (fresh Sample.signed_in_storage Sample.phone [])))
    = Some (mkPendingAuth (JString "tok123") (email (credential_user Sample.popupUser))) /\
  loading (fst (run AuthContext.initAuth (fun _ => Sample.returning) 0
                    (fresh Sample.signed_in_storage Sample.phone []))) = false /\
  user (fst (run AuthContext.initAuth (fun _ => Sample.returning) 0
                 (fresh Sample.signed_in_storage Sample.phone []))) = JNull /\
  localStorage (fst (run AuthContext.initAuth (fun _ => Sample.returning) 0
                         (fresh Sample.signed_in_storage Sample.phone [])))
    = Sample.signed_in_storage /\
  called (since (fresh Sample.signed_in_storage Sample.phone [])
            (fst (run AuthContext.initAuth (fun _ => Sample.returning) 0
                      (fresh Sample.signed_in_storage Sample.phone []))))
    = [getRedirectResult; getIdToken false] /\
  snd (run AuthContext.initAuth (fun _ => Sample.returning) 0
           (fresh Sample.signed_in_storage Sample.phone [])) = Fulfilled tt.
Proof.
  apply (initAuth_holds_recovered_credential (fun _ => Sample.returning) 0
           (fresh Sample.signed_in_storage Sample.phone []) Sample.popupUser "tok123").
  - reflexivity.
  - reflexivity.
  - discriminate.
Defined.

(** X10.  The mount effect never rejects and always ends with [loading]
    false, whatever the redirect check, the token request and the identity
    check do; and it never navigates. *)
Theorem initAuth_always_ends_loading (env : Env) n w :
  snd (run AuthContext.initAuth env n w) = Fulfilled tt /\
  loading (fst (run AuthContext.initAuth env n w)) = false /\
  filter is_navigation (since w (fst (run AuthContext.initAuth env n w))) = [].
Proof.
  rewrite initAuth_cases.
  assert (Hc : forall m w1 evs, trace w1 = trace w ++ evs -> filter is_navigation evs = [] ->
            snd (run AuthContext.checkAuth env m w1) = Fulfilled tt /\
            loading (fst (run AuthContext.checkAuth env m w1)) = false /\
            filter is_navigation (since w (fst (run AuthContext.checkAuth env m w1))) = []).
  { intros m w1 evs Ht Hf. rewrite checkAuth_cases.
    destruct (_ && _); [destruct (identified _)|];
      (split; [reflexivity|]); (split; [by fields|]);
      unfold since, perform; cbn [fst snd fold_left]; autorewrite with world;
      rewrite Ht, <- ?app_assoc, drop_app_length, !filter_app, Hf; reflexivity. }
  destruct (env n getRedirectResult) as [[uc|]|e].
  - cbv zeta. destruct (env (S n) (getIdToken false)) as [tok|e];
      [destruct (string_nonempty tok)|].
    + split; [reflexivity|]. split; [by fields|]. by events.
    + apply (Hc _ _ [Called getRedirectResult; Called (getIdToken false)]);
        [by autorewrite with world; rewrite <- app_assoc|reflexivity].
    + apply (Hc _ _ [Called getRedirectResult; Called (getIdToken false)]);
        [by autorewrite with world; rewrite <- app_assoc|reflexivity].
  - apply (Hc _ _ [Called getRedirectResult]); [by autorewrite with world|reflexivity].
  - apply (Hc _ _ [Called getRedirectResult]); [by autorewrite with world|reflexivity].
Qed.

(** ** The Google exchange *)

Lemma errorMsg_truthy e : truthy (AuthContext.errorMsg e) = true.
Proof.
  unfold AuthContext.errorMsg.
  generalize (Js.or_else (opt (opt (response e) "data") "detail")
                         (opt (opt (response e) "data") "message")).
  intros v. unfold Js.or_else. by destruct (truthy v) eqn:E.
Qed.

(** X11.  A failed exchange leaves the page as it was: [handleGoogleLogin]
    stores no token, sets no user and does not navigate; it shows one error
    toast, whose text is never empty, and rethrows the error. *)
Theorem failed_exchange_changes_nothing idToken role (env : Env) n w :
  exchanged (env n (exchange idToken role)) = None ->
  same_state w (fst (run (AuthContext.handleGoogleLogin idToken role) env n w)) /\
  since w (fst (run (AuthContext.handleGoogleLogin idToken role) env n w)) =
    [Called (exchange idToken role);
     Did (toast error (AuthContext.errorMsg (failure (env n (exchange idToken role)))))] /\
  truthy (AuthContext.errorMsg (failure (env n (exchange idToken role)))) = true /\
  snd (run (AuthContext.handleGoogleLogin idToken role) env n w)
    = Rejected (failure (env n (exchange idToken role))).
Proof.
  intros Hfail. destruct (handleGoogleLogin_turns idToken role w) as (k & H1 & H2).
  rewrite run_turn, H1, run_turn, H2, Hfail.
  split; [by frame|]. split; [by events|]. split; [apply errorMsg_truthy|reflexivity].
Qed.

Lemma failed_exchange_changes_nothing_witness :
  same_state (Sample.login_page (Some Sample.tok123))
    (fst (run (AuthContext.handleGoogleLogin (JString "tok123") (JString "acharya"))
              Sample.offline 0 (Sample.login_page (Some Sample.tok123)))) /\
  since (Sample.login_page (Some Sample.tok123))
    (fst (run (AuthContext.handleGoogleLogin (JString "tok123") (JString "acharya"))
              Sample.offline 0 (Sample.login_page (Some Sample.tok123)))) =
    [Called (exchange (JString "tok123") (JString "acharya"));
     Did (toast error (AuthContext.errorMsg
            (failure (Sample.offline 0 (exchange (JString "tok123") (JString "acharya"))))))] /\
  truthy (AuthContext.errorMsg
            (failure (Sample.offline 0 (exchange (JString "tok123") (JString "acharya")))))
    = true /\
  snd (run (AuthContext.handleGoogleLogin (JString "tok123") (JString "acharya"))
           Sample.offline 0 (Sample.login_page (Some Sample.tok123)))
    = Rejected (failure (Sample.offline 0 (exchange (JString "tok123") (JString "acharya")))).
Proof.
  exact (failed_exchange_changes_nothing (JString "tok123") (JString "acharya")
           Sample.offline 0 (Sample.login_page (Some Sample.tok123)) eq_refl).
Defined.

(** X12.  With a credential held, [completeGoogleLogin(role)] sends exactly
    one backend request, whether it then succeeds or fails:
    [POST /auth/google] with the held token and the given role. *)
Theorem complete_sends_one_request w pending role (env : Env) n :
  pendingGoogleAuth w = Some pending ->
  called (since w (fst (run (body (HCompleteGoogleLogin role) w) env n w)))
    = [exchange (idToken pending) role].
Proof.
  intros Hheld. cbn [body]. rewrite Hheld, run_completeGoogleLogin. cbv zeta.
  destruct (exchanged _) as [[[a rt] u]|]; by events.
Qed.

Lemma complete_sends_one_request_witness :
  called (since (Sample.login_page (Some Sample.tok123))
            (fst (run (body (HCompleteGoogleLogin (JString "acharya"))
                            (Sample.login_page (Some Sample.tok123)))
                      Sample.offline 0 (Sample.login_page (Some Sample.tok123)))))
    = [exchange (JString "tok123") (JString "acharya")].
Proof.
  exact (complete_sends_one_request (Sample.login_page (Some Sample.tok123)) Sample.tok123
           (JString "acharya") Sample.offline 0 eq_refl).
Defined.

Lemma invoke_complete pg pending role :
  pendingGoogleAuth (world pg) = Some pending ->
  exists k,
    step (Invoke (HCompleteGoogleLogin role)) pg =
      mkPage (log (Called (exchange (idToken pending) role)) (world pg))
             (tasks pg ++ [mkTask (exchange (idToken pending) role) k]) /\
    forall r w1,
      turn (k r) w1 =
      match exchanged r with
      | Some (a, rt, u) =>
          (perform (sign_in a rt u ++ [setPendingGoogleAuth None]) w1, Finished (Fulfilled tt))
      | None =>
          (perform [toast error (AuthContext.errorMsg (failure r));
                    toast error (Js.or_else (message (failure r))
                                       (JString "Failed to complete login"))] w1,
           Finished (Rejected (failure r)))
      end.
Proof.
  intros Hheld.
  destruct (completeGoogleLogin_turns pending role (world pg)) as (k & H1 & H2).
  exists k. split; [|exact H2]. unfold step. cbn [body]. by rewrite Hheld, H1.
Qed.



(** X14.  [completeGoogleLogin] has no guard against a second call: invoked
    twice before the first exchange settles, it sends two exchange requests
    with the same held token, and both stay in flight. *)
Theorem complete_twice_sends_two_requests pg pending role1 role2 :
  pendingGoogleAuth (world pg) = Some pending ->
  called (since (world pg)
            (world (steps [Invoke (HCompleteGoogleLogin role1);
                           Invoke (HCompleteGoogleLogin role2)] pg)))
    = [exchange (idToken pending) role1; exchange (idToken pending) role2] /\
  map awaited (tasks (steps [Invoke (HCompleteGoogleLogin role1);
                             Invoke (HCompleteGoogleLogin role2)] pg))
    = map awaited (tasks pg)
      ++ [exchange (idToken pending) role1; exchange (idToken pending) role2].
Proof.
  intros Hheld. destruct (invoke_complete pg pending role1 Hheld) as (k1 & E1 & _).
  cbn [steps fold_left]. rewrite E1.
  destruct (invoke_complete
              (mkPage (log (Called (exchange (idToken pending) role1)) (world pg))
                      (tasks pg ++ [mkTask (exchange (idToken pending) role1) k1]))
              pending role2 Hheld) as (k2 & E2 & _).
  rewrite E2. cbn [world tasks]. split; [by events|].
  rewrite !map_app, <- app_assoc. reflexivity.
Qed.

Lemma complete_twice_sends_two_requests_witness :
  called (since (Sample.login_page (Some Sample.tok123))
            (world (steps [Invoke (HCompleteGoogleLogin (JString "grihasta"));
                           Invoke (HCompleteGoogleLogin (JString "acharya"))]
                      (mkPage (Sample.login_page (Some Sample.tok123)) []))))
    = [exchange (JString "tok123") (JString "grihasta");
       exchange (JString "tok123") (JString "acharya")] /\
  map awaited (tasks (steps [Invoke (HCompleteGoogleLogin (JString "grihasta"));
                             Invoke (HCompleteGoogleLogin (JString "acharya"))]
                        (mkPage (Sample.login_page (Some Sample.tok123)) [])))
    = [] ++ [exchange (JString "tok123") (JString "grihasta");
             exchange (JString "tok123") (JString "acharya")].
Proof.
  exact (complete_twice_sends_two_requests
           (mkPage (Sample.login_page (Some Sample.tok123)) []) Sample.tok123
           (JString "grihasta") (JString "acharya") eq_refl).
Defined.

(** ** [loginWithGoogle] *)

(** X15.  [loginWithGoogle] writes [pendingGoogleAuth] exactly when it answers
    that role selection is needed, and then holds the e-mail it reports.
    When it returns nothing (the redirect took over) or rejects, the page
    state is as before; a rejection is shown in one error toast. *)
Theorem loginWithGoogle_holds_iff_role_needed cred (env : Env) n w :
  match snd (run (AuthContext.loginWithGoogle cred) env n w) with
  | Fulfilled v =>
      (v = JUndefined /\
       same_state w (fst (run (AuthContext.loginWithGoogle cred) env n w)) /\
       performed (since w (fst (run (AuthContext.loginWithGoogle cred) env n w))) = []) \/
      (exists tok userEmail,
         v = AuthContext.needsRoleSelection userEmail /\
         pendingGoogleAuth (fst (run (AuthContext.loginWithGoogle cred) env n w))
           = Some (mkPendingAuth tok userEmail) /\
         performed (since w (fst (run (AuthContext.loginWithGoogle cred) env n w)))
           = [setPendingGoogleAuth (Some (mkPendingAuth tok userEmail))])
  | Rejected e =>
      same_state w (fst (run (AuthContext.loginWithGoogle cred) env n w)) /\
      performed (since w (fst (run (AuthContext.loginWithGoogle cred) env n w)))
        = [toast error (Js.or_else (message e) (JString "Login failed"))]
  end.
Proof.
  unfold AuthContext.loginWithGoogle, Firebase.signInWithGoogle, Firebase.isMobileDevice.
  destruct (truthy cred); cbn.
  - right. eexists _, _. split; [reflexivity|]. split; [by fields|by events].
  - destruct (Firebase.mobileUserAgent (userAgent w)); cbn.
    + destruct (env n signInWithRedirect); cbn.
      * left. split; [reflexivity|]. split; [by frame|by events].
      * split; [by frame|by events].
    + destruct (env n signInWithPopup); cbn; [|split; [by frame|by events]].
      destruct (env (S n) (getIdToken true)); cbn; [|split; [by frame|by events]].
      right. eexists _, _. split; [reflexivity|]. split; [by fields|by events].
Qed.

(** ** [loginWithEmail], [registerWithEmail] *)

Lemma truthy_not_nullish v : truthy v = true -> nullish v = false.
Proof. by destruct v. Qed.

Lemma unwrap_not_nullish response_data :
  nullish response_data = false -> nullish (unwrap response_data) = false.
Proof.
  intros H. unfold unwrap, Js.or_else.
  destruct (truthy (get response_data "data")) eqn:E; [by apply truthy_not_nullish|exact H].
Qed.

(** What [loginWithEmail] does in every case. *)
Lemma loginWithEmail_cases email password (env : Env) n w :
  run (AuthContext.loginWithEmail email password) env n w =
  let w1 := log (Called (login_request email password)) w in
  match env n (login_request email password) with
  | Rejected e =>
      (perform [toast error (Js.or_else (opt (opt (response e) "data") "detail")
                                        (JString "Login failed"))] w1, Rejected e)
  | Fulfilled response_data =>
      if nullish response_data
      then (perform [toast error (JString "Login failed")] w1, Rejected TypeError)
      else
        let payload := unwrap response_data in
        if nullish (get payload "user")
        then (perform [setItem "accessToken" (get payload "access_token");
                       setItem "refreshToken" (get payload "refresh_token");
                       setUser (get payload "user");
                       toast error (JString "Login failed")] w1, Rejected TypeError)
        else (perform [setItem "accessToken" (get payload "access_token");
                       setItem "refreshToken" (get payload "refresh_token");
                       setUser (get payload "user");
                       navigate (AuthContext.destination (get payload "user")) false;
                       toast success (JString "Login successful!")] w1, Fulfilled tt)
  end.
Proof.
  unfold AuthContext.loginWithEmail, login_request, member. cbn.
  destruct (env n _) as [response_data|e]; cbn; [|reflexivity].
  destruct (nullish response_data) eqn:Hn; cbn; [reflexivity|].
  fold (unwrap response_data). rewrite (unwrap_not_nullish _ Hn). cbn.
  destruct (nullish (get (unwrap response_data) "user")) eqn:Hu; cbn; [reflexivity|].
  unfold AuthContext.destination, AuthContext.isOnboarded.
  destruct (truthy _); reflexivity.
Qed.

(** X16.  When the login request is rejected, [loginWithEmail] changes
    nothing on the page: it shows the backend's [detail] (or "Login failed")
    in an error toast and rethrows the same error, without navigating. *)
Theorem rejected_login_changes_nothing email password (env : Env) n w e :
  env n (login_request email password) = Rejected e ->
  same_state w (fst (run (AuthContext.loginWithEmail email password) env n w)) /\
  since w (fst (run (AuthContext.loginWithEmail email password) env n w)) =
    [Called (login_request email password);
     Did (toast error (Js.or_else (opt (opt (response e) "data") "detail")
                                  (JString "Login failed")))] /\
  snd (run (AuthContext.loginWithEmail email password) env n w) = Rejected e.
Proof.
  intros He. rewrite loginWithEmail_cases, He. cbv zeta.
  split; [by frame|]. split; [by events|reflexivity].
Qed.

Lemma rejected_login_changes_nothing_witness :
  same_state (Sample.login_page None)
    (fst (run (AuthContext.loginWithEmail (JString "a@x.com") (JString "pw"))
              Sample.offline 0 (Sample.login_page None))) /\
  since (Sample.login_page None)
    (fst (run (AuthContext.loginWithEmail (JString "a@x.com") (JString "pw"))
              Sample.offline 0 (Sample.login_page None))) =
    [Called (login_request (JString "a@x.com") (JString "pw"));
     Did (toast error (Js.or_else (opt (opt (response Sample.networkError) "data") "detail")
                                  (JString "Login failed")))] /\
  snd (run (AuthContext.loginWithEmail (JString "a@x.com") (JString "pw"))
           Sample.offline 0 (Sample.login_page None)) = Rejected Sample.networkError.
Proof.
  exact (rejected_login_changes_nothing (JString "a@x.com") (JString "pw")
           Sample.offline 0 (Sample.login_page None) Sample.networkError eq_refl).
Defined.







(** ** [refreshUserData], [logout] and what follows them *)

(** X20.  [refreshUserData] never rejects and touches nothing but the user:
    the storage, the holder and the loading flag stay as they are and no
    command other than [setUser] is issued.  When the request fails (or its
    response has no body) the user too is left as it was, unlike in
    [checkAuth]. *)
Theorem refreshUserData_only_sets_user (env : Env) n w :
  snd (run AuthContext.refreshUserData env n w) = Fulfilled tt /\
  localStorage (fst (run AuthContext.refreshUserData env n w)) = localStorage w /\
  pendingGoogleAuth (fst (run AuthContext.refreshUserData env n w)) = pendingGoogleAuth w /\
  loading (fst (run AuthContext.refreshUserData env n w)) = loading w /\
  match identified (env n (api_get "/auth/me")) with
  | Some userData =>
      user (fst (run AuthContext.refreshUserData env n w)) = userData /\
      since w (fst (run AuthContext.refreshUserData env n w))
        = [Called (api_get "/auth/me"); Did (setUser userData)]
  | None =>
      user (fst (run AuthContext.refreshUserData env n w)) = user w /\
      since w (fst (run AuthContext.refreshUserData env n w)) = [Called (api_get "/auth/me")]
  end.
Proof.
  unfold AuthContext.refreshUserData, identified, member. cbn.
  destruct (env n (api_get "/auth/me")) as [response_data|e]; cbn;
    [destruct (nullish response_data); cbn|];
    (split; [reflexivity|]); repeat (split; [by fields|]); by events.
Qed.

(** X21.  [logout] does not touch [pendingGoogleAuth] or [loading]: a Google
    credential held before logging out is still held afterwards. *)
Theorem logout_keeps_pending (env : Env) n w :
  pendingGoogleAuth (fst (run AuthContext.logout env n w)) = pendingGoogleAuth w /\
  loading (fst (run AuthContext.logout env n w)) = loading w.
Proof. rewrite run_logout. split; by fields. Qed.

(** X22.  After [logout], [checkAuth] finds no tokens: it sends no request
    and only ends loading, the user staying [null]. *)
Theorem checkAuth_after_logout_sends_nothing (env : Env) n m w :
  since (fst (run AuthContext.logout env n w))
        (fst (run AuthContext.checkAuth env m (fst (run AuthContext.logout env n w))))
    = [Did (setLoading false)] /\
  user (fst (run AuthContext.checkAuth env m (fst (run AuthContext.logout env n w)))) = JNull.
Proof.
  assert (H : AuthContext.item_truthy
                (localStorage (fst (run AuthContext.logout env n w)) !! "accessToken")
              && AuthContext.item_truthy
                (localStorage (fst (run AuthContext.logout env n w)) !! "refreshToken")
              = false).
  { rewrite run_logout. fields. by simplify_map_eq. }
  rewrite (checkAuth_without_tokens env m _ H). split; [by events|].
  cbn [fst]. rewrite user_apply, run_logout. by fields.
Qed.



(** ** The role-selection dialog over several actions *)

Module PromptFacts.
Import RoleSelectionDialog.

Lemma interact_app l1 l2 s :
  interact (l1 ++ l2) s =
  (fst (interact l2 (fst (interact l1 s))),
   snd (interact l1 s) ++ snd (interact l2 (fst (interact l1 s)))).
Proof.
  revert s. induction l1 as [|a l1 IH]; intros s.
  - cbn. by destruct (interact l2 s).
  - cbn [interact app]. destruct (handle a s) as [s1 o1]. rewrite IH.
    destruct (interact l1 s1) as [s2 o2]. cbn [fst snd].
    by rewrite app_assoc.
Qed.

Lemma dismissals_keep_state l s :
  forallb dismisses l = true -> fst (interact l s) = s.
Proof.
  revert s. induction l as [|a l IH]; intros s H; [reflexivity|].
  cbn [forallb] in H. apply andb_true_iff in H as [Ha Hl]. cbn [interact].
  assert (E : handle a s = (s, snd (handle a s)))
    by (destruct a; try discriminate Ha; reflexivity).
  rewrite E. specialize (IH s Hl). destruct (interact l s) as [s2 o2]. exact IH.
Qed.

(** X24.  The dialog never resets its selection: once an option is chosen,
    cancelling, closing or confirming leave it selected, so a later
    "Continue" reports the option chosen last, not the initial [grihasta]. *)
Theorem selection_survives_dismissals before (r : Radio) after s :
  forallb dismisses after = true ->
  selectedRole (fst (interact (before ++ RadioChange r :: after) s)) = value r /\
  snd (handle ClickContinue (fst (interact (before ++ RadioChange r :: after) s)))
    = [onSelectRole (value r); onClose].
Proof.
  intros Hd. rewrite interact_app. cbn [fst interact handle].
  destruct (interact after (mkState (value r))) as [s2 o2] eqn:E. cbn [fst].
  assert (Hs : s2 = mkState (value r)).
  { pose proof (dismissals_keep_state after (mkState (value r)) Hd) as H.
    by rewrite E in H. }
  subst s2. split; reflexivity.
Qed.

Lemma selection_survives_dismissals_witness :
  selectedRole (fst (interact ([ClickGrihasta] ++ RadioChange acharya :: [ClickCancel]) mount))
    = value acharya /\
  snd (handle ClickContinue
         (fst (interact ([ClickGrihasta] ++ RadioChange acharya :: [ClickCancel]) mount)))
    = [onSelectRole (value acharya); onClose].
Proof.
  exact (selection_survives_dismissals [ClickGrihasta] acharya [ClickCancel] mount eq_refl).
Defined.

Lemma closes_after_select_app l1 l2 :
  closes_after_select l1 = true -> closes_after_select l2 = true ->
  closes_after_select (l1 ++ l2) = true.
Proof.
  intros H1 H2. revert H1.
  enough (H : (closes_after_select l1 = true -> closes_after_select (l1 ++ l2) = true) /\
              (forall c, closes_after_select (c :: l1) = true ->
                         closes_after_select ((c :: l1) ++ l2) = true))
    by apply H.
  induction l1 as [|d l1 [IHa IHb]].
  - split; [by intros _|]. intros [role|] H; [discriminate H|exact H2].
  - split; [apply IHb|]. intros [role|] H.
    + destruct d as [role'|]; [discriminate H|]. cbn in *. by apply IHa.
    + cbn in *. by apply IHb.
Qed.

(** X25.  Over any sequence of user actions, the dialog calls
    [onSelectRole] once per "Continue" and never without calling [onClose]
    right after it; every other call it makes is a lone [onClose]. *)
Theorem select_is_always_followed_by_close (actions : list Action) s :
  closes_after_select (snd (interact actions s)) = true /\
  length (filter is_select (snd (interact actions s)))
    = length (filter is_continue actions).
Proof.
  revert s. induction actions as [|a actions IH]; intros s; [by split|].
  cbn [interact]. destruct (handle a s) as [s1 o1] eqn:E.
  destruct (IH s1) as [IH1 IH2]. destruct (interact actions s1) as [s2 o2]. cbn [snd] in *.
  split.
  - apply closes_after_select_app; [|exact IH1].
    destruct a; cbn in E; inversion E; reflexivity.
  - rewrite filter_app, length_app, IH2.
    destruct a; cbn in E; inversion E; reflexivity.
Qed.

End PromptFacts.

(** ** The storage keys the provider touches *)

Lemma keeps_turn key (p : Proc unit) w :
  keeps key p ->
  localStorage (fst (turn p w)) !! key = localStorage w !! key /\
  Forall (task_keeps key) (park (snd (turn p w)) []).
Proof.
  revert w. induction p as [a|e|e k IH|k' k IH|k IH|c k IH]; intros w Hk; cbn in *.
  - by split.
  - by split.
  - destruct Hk as [He Hk]. destruct (IH None (apply e w) (Hk None)) as [H1 H2]. split; [|exact H2].
    rewrite H1, storage_apply. destruct e; try reflexivity.
    + by apply lookup_insert_ne.
    + by apply lookup_delete_ne.
  - by apply IH.
  - by apply IH.
  - split; [reflexivity|]. constructor; [|constructor]. intros r. apply Hk.
Qed.

Ltac keeping :=
  cbn;
  repeat (match goal with
          | |- _ /\ _ => split
          | |- forall _, _ => intro
          | |- context [match ?x with _ => _ end] => destruct x eqn:?
          end; cbn);
  try done; try congruence.

Lemma body_keeps key h w :
  key <> "accessToken" -> key <> "refreshToken" -> keeps key (body h w).
Proof.
  intros Ha Hr.
  destruct h; cbn [body];
    unfold AuthContext.initAuth, AuthContext.checkAuth, AuthContext.loginWithGoogle,
      AuthContext.completeGoogleLogin, AuthContext.handleGoogleLogin,
      AuthContext.cancelGoogleLogin, AuthContext.loginWithEmail,
      AuthContext.registerWithEmail, AuthContext.logout, AuthContext.updateUser,
      AuthContext.refreshUserData, AuthContext.getItem,
      Firebase.checkRedirectResult, Firebase.signInWithGoogle, Firebase.firebaseSignOut,
      Firebase.isMobileDevice, member;
    keeping.
Qed.

(** X26.  The provider touches no [localStorage] entry other than
    [accessToken] and [refreshToken]: whatever functions are invoked, however
    their promises settle and interleave, and across reloads, every other
    key keeps the value it had. *)
Theorem other_storage_keys_untouched key (ss : list Step) storage ua :
  key <> "accessToken" -> key <> "refreshToken" ->
  localStorage (world (steps ss (load storage ua))) !! key = storage !! key.
Proof.
  intros Ha Hr.
  enough (H : forall pg, Forall (task_keeps key) (tasks pg) ->
                localStorage (world (steps ss pg)) !! key = localStorage (world pg) !! key)
    by (apply (H (load storage ua)); constructor).
  induction ss as [|s ss IH]; intros pg Hts; [reflexivity|].
  cbn [steps fold_left]. fold (steps ss (step s pg)).
  assert (Hstep : localStorage (world (step s pg)) !! key = localStorage (world pg) !! key /\
                  Forall (task_keeps key) (tasks (step s pg))).
  { destruct s as [h|i r|]; cbn [step].
    - destruct (keeps_turn key (body h (world pg)) (world pg) (body_keeps key h _ Ha Hr))
        as [H1 H2].
      destruct (turn _ _) as [w' st]. cbn [fst snd world tasks] in *.
      split; [exact H1|]. rewrite park_app. by apply Forall_app.
    - destruct (tasks pg !! i) as [t|] eqn:Et; [|by split].
      assert (Ht : task_keeps key t) by (eapply Forall_lookup_1; eauto).
      destruct (keeps_turn key (rest t (r (awaited t))) (world pg) (Ht _)) as [H1 H2].
      destruct (turn _ _) as [w' st]. cbn [fst snd world tasks] in *.
      split; [exact H1|]. rewrite park_app.
      apply Forall_app. split; [by apply Forall_delete|exact H2].
    - split; [reflexivity|constructor]. }
  destruct Hstep as [H1 H2]. rewrite (IH _ H2). exact H1.
Qed.

Lemma other_storage_keys_untouched_witness :
  localStorage (world (steps
      [ Invoke (HLoginWithGoogle JNull);
        Settle 0 (Sample.online Sample.newUser);
        Settle 0 (Sample.online Sample.newUser);
        Invoke (HCompleteGoogleLogin (JString "acharya"));
        Settle 0 (Sample.online Sample.newUser);
        Invoke HLogout ]
      (load (<["theme" := "dark"]> ∅) Sample.desktop))) !! "theme"
    = (<["theme" := "dark"]> ∅ : gmap string string) !! "theme".
Proof.
  apply (other_storage_keys_untouched "theme").
  - discriminate.
  - discriminate.
Defined.
